(** * easytix_booking: the booking API and the Scheduled Trips projection

    A shallow embedding of [easytix_booking/api/booking.py] and of
    [easytix_booking/doctype/scheduled_trips/scheduled_trips.py].

    The Python code runs against the Frappe document store.  The store is
    modelled as three keyed tables with a committed and a working (in
    transaction) copy; the whitelisted functions are state transformers
    over it that end in the response dictionary they return. *)

From Stdlib Require Import ZArith String Ascii.
From stdpp Require Import base option list gmap strings pretty sorting.

Set Default Proof Using "Type".

Local Open Scope string_scope.
Local Open Scope list_scope.
Local Open Scope Z_scope.

(** ** Documents *)

(** A child row or JSON object passed through opaquely: field name to value. *)
Abbreviation fields := (gmap string string).

(** A row of the "Variation Quantity" child table. *)
Record VariationQuantity := {
  variation : string;
  line_quantity : Z
}.

(** A "Booking" document; its [name] is the key of [tabBooking]. *)
Record Booking := {
  booking_name : string;
  email : string;
  contact_number : string;
  package : string;
  booking_date : string;
  status : string;
  quantity : Z;
  participants : list fields;
  special_requests : list fields;
  variation_quantity : list VariationQuantity
}.

Record Package := {
  package_name : string;
  resource : string
}.

Record Resource := {
  resource_name : string;
  capacity : Z
}.

#[global] Instance VariationQuantity_eq_dec : EqDecision VariationQuantity.
Proof. solve_decision. Defined.
#[global] Instance Booking_eq_dec : EqDecision Booking.
Proof. solve_decision. Defined.

Definition set_status (s : string) (b : Booking) : Booking :=
  {| booking_name := booking_name b; email := email b;
     contact_number := contact_number b; package := package b;
     booking_date := booking_date b; status := s; quantity := quantity b;
     participants := participants b; special_requests := special_requests b;
     variation_quantity := variation_quantity b |}.

Definition set_participants (ps : list fields) (b : Booking) : Booking :=
  {| booking_name := booking_name b; email := email b;
     contact_number := contact_number b; package := package b;
     booking_date := booking_date b; status := status b; quantity := quantity b;
     participants := ps; special_requests := special_requests b;
     variation_quantity := variation_quantity b |}.

Definition set_quantity (q : Z) (b : Booking) : Booking :=
  {| booking_name := booking_name b; email := email b;
     contact_number := contact_number b; package := package b;
     booking_date := booking_date b; status := status b; quantity := q;
     participants := participants b; special_requests := special_requests b;
     variation_quantity := variation_quantity b |}.

(** ** The store *)

Record Tables := {
  tabBooking : gmap string Booking;
  tabPackage : gmap string Package;
  tabResource : gmap string Resource
}.

(** [working] is what the current transaction reads and writes;
    [committed] is what [frappe.db.commit] last made durable. *)
Record DB := {
  committed : Tables;
  working : Tables
}.

Definition put_booking (name : string) (b : Booking) (t : Tables) : Tables :=
  {| tabBooking := <[name := b]> (tabBooking t);
     tabPackage := tabPackage t;
     tabResource := tabResource t |}.

(** ** Exceptions and the request monad *)

Inductive exn :=
  | ValueError (msg : string)
  | TypeError (msg : string)
  | DoesNotExistError (msg : string)
  | ValidationError (msg : string)
  | OtherError (msg : string).

(** [str(e)] *)
Definition str (e : exn) : string :=
  match e with
  | ValueError m | TypeError m | DoesNotExistError m
  | ValidationError m | OtherError m => m
  end.

(** [except frappe.DoesNotExistError] *)
Definition is_DoesNotExistError (e : exn) : bool :=
  match e with DoesNotExistError _ => true | _ => false end.

Inductive outcome (A : Type) :=
  | Ok (a : A)
  | Raise (e : exn).
Arguments Ok {A} a.
Arguments Raise {A} e.

Definition M (A : Type) : Type := DB → outcome A * DB.

Definition ret {A} (a : A) : M A := λ db, (Ok a, db).
Definition raise {A} (e : exn) : M A := λ db, (Raise e, db).
Definition bind {A B} (m : M A) (k : A → M B) : M B :=
  λ db, match m db with
        | (Ok a, db') => k a db'
        | (Raise e, db') => (Raise e, db')
        end.

#[global] Instance M_ret : MRet M := @ret.
#[global] Instance M_bind : MBind M := λ A B k m, bind m k.

(** [try: body  except Exception as e: handler e] *)
Definition try_except {A} (body : M A) (handler : exn → DB → A * DB)
    : DB → A * DB :=
  λ db, match body db with
        | (Ok a, db') => (a, db')
        | (Raise e, db') => handler e db'
        end.

(** Python truthiness of a string. *)
Definition truthy (s : string) : bool :=
  match s with EmptyString => false | String _ _ => true end.

(** ** Frappe primitives *)

(** [frappe.get_doc(doctype, name)] raises [DoesNotExistError] for a
    missing record. *)
Definition not_found_msg (doctype name : string) : string :=
  doctype +:+ " " +:+ name +:+ " not found".

Definition get_doc_Booking (name : string) : M Booking :=
  λ db, match tabBooking (working db) !! name with
        | Some b => (Ok b, db)
        | None => (Raise (DoesNotExistError (not_found_msg "Booking" name)), db)
        end.

Definition get_doc_Package (name : string) : M Package :=
  λ db, match tabPackage (working db) !! name with
        | Some p => (Ok p, db)
        | None => (Raise (DoesNotExistError (not_found_msg "Package" name)), db)
        end.

(** What the store does with one [insert] or [save]: it either stores the
    document, or raises (permission, validation or storage failure),
    leaving the working copy in the state [partial] it had reached. *)
Inductive write_outcome :=
  | Stored
  | Failed (partial : Tables) (e : exn).

(** [booking.save(ignore_permissions=False)] *)
Definition save (w : write_outcome) (name : string) (b : Booking) : M unit :=
  λ db, match w with
        | Stored =>
            (Ok tt, {| committed := committed db;
                       working := put_booking name b (working db) |})
        | Failed partial e =>
            (Raise e, {| committed := committed db; working := partial |})
        end.

(** [frappe.db.commit()] and [frappe.db.rollback()] *)
Definition db_commit : M unit :=
  λ db, (Ok tt, {| committed := working db; working := working db |}).

Definition db_rollback (db : DB) : DB :=
  {| committed := committed db; working := committed db |}.

(** ** Quantity ledger *)

Definition sum_list_Z (l : list Z) : Z := foldr Z.add 0 l.

(** Modelled from the spec: the Booking document controller
    (doctype/booking) is not among the sources; the spec gives the derived
    field as "quantity = sum of all line-item quantities". *)
Definition ledger_total (items : list VariationQuantity) : Z :=
  sum_list_Z (line_quantity <$> items).

(** Modelled from the spec: the controller hook that runs inside
    [booking.insert] and fills the derived [quantity]. *)
Definition derive_quantity (b : Booking) : Booking :=
  set_quantity (ledger_total (variation_quantity b)) b.

(** ** Responses *)

Inductive data :=
  | Empty
  | BookingData (name : string) (b : Booking)
  | StatusData (name booking_name status : string)
  | ManifestData (name booking_name status : string)
      (participants : list (list (string * option string))).

Module Response.
Record t := { status : string; data : data; message : string }.
End Response.

Definition success_response (d : data) (msg : string) : Response.t :=
  {| Response.status := "success"; Response.data := d; Response.message := msg |}.

Definition error_response (msg : string) : Response.t :=
  {| Response.status := "error"; Response.data := Empty; Response.message := msg |}.

(** ** api/booking.py *)

Section BookingApi.

(** [frappe.utils.getdate]: the parsed date in ISO form, or what it raised. *)
Variable getdate : string → exn + string.
(** [frappe.utils.validate_email_address] *)
Variable validate_email_address : string → string.
(** The identifier the store assigns to a new Booking. *)
Variable autoname : Tables → Booking → string.
(** [frappe.get_meta("Booking Participant").fields] as
    (fieldname, fieldtype) pairs. *)
Variable meta_fields : list (string * string).

(** [booking.insert(ignore_permissions=False)] *)
Definition insert (w : write_outcome) (b : Booking) : M (string * Booking) :=
  λ db, match w with
        | Stored =>
            let name := autoname (working db) b in
            let b' := derive_quantity b in
            (Ok (name, b'),
             {| committed := committed db;
                working := put_booking name b' (working db) |})
        | Failed partial e =>
            (Raise e, {| committed := committed db; working := partial |})
        end.

Definition parse_booking_date (s : string) : M string :=
  match getdate s with
  | inr d => ret d
  | inl (ValueError _) =>
      raise (ValueError "Invalid booking date format. Use YYYY-MM-DD")
  | inl e => raise e
  end.

(** The document [frappe.get_doc({"doctype": "Booking", ...})] builds. *)
Definition new_booking
    (booking_name email contact_number package booking_date : string)
    (variation_quantity : list VariationQuantity)
    (participants special_requests : option (list fields)) : Booking :=
  {| booking_name := booking_name;
     email := email;
     contact_number := contact_number;
     package := package;
     booking_date := booking_date;
     status := "Created";
     quantity := 0;
     participants := default [] participants;
     special_requests := default [] special_requests;
     variation_quantity := variation_quantity |}.

Definition create_body (w : write_outcome)
    (booking_name email contact_number package booking_date : string)
    (variation_quantity : option (list VariationQuantity))
    (participants special_requests : option (list fields)) : M Response.t :=
  if negb (forallb truthy
             [booking_name; email; contact_number; package; booking_date])
  then raise (ValueError "All required fields must be provided")
  else
    _ ← get_doc_Package package;
    booking_date ← parse_booking_date booking_date;
    match variation_quantity with
    | None | Some [] => raise (ValueError "Invalid variations provided")
    | Some variation_quantity =>
        if negb (truthy (validate_email_address email))
        then raise (ValueError "Invalid email address")
        else
          let booking :=
            new_booking booking_name email contact_number package
              booking_date variation_quantity participants special_requests in
          nb ← insert w booking;
          db_commit;;
          ret (success_response (BookingData nb.1 nb.2)
                 "Booking created successfully")
    end.

Definition create (w : write_outcome)
    (booking_name email contact_number package booking_date : string)
    (variation_quantity : option (list VariationQuantity))
    (participants special_requests : option (list fields))
    : DB → Response.t * DB :=
  try_except
    (create_body w booking_name email contact_number package booking_date
       variation_quantity participants special_requests)
    (λ e db, (error_response ("Failed to create booking: " +:+ str e),
              db_rollback db)).

Definition finalize_body (w : write_outcome) (name : string) : M Response.t :=
  booking ← get_doc_Booking name;
  if decide (status booking ≠ "Created")
  then raise (ValueError ("Booking '" +:+ name +:+ "' already finalized"))
  else
    let booking := set_status "Pending" booking in
    save w name booking ;;
    db_commit ;;
    ret (success_response
           (StatusData name (booking_name booking) (status booking))
           "Booking status updated successfully").

Definition finalize (w : write_outcome) (name : string)
    : DB → Response.t * DB :=
  try_except (finalize_body w name)
    (λ e db,
       match e with
       | DoesNotExistError _ =>
           (error_response ("Booking '" +:+ name +:+ "' not found"), db)
       | _ =>
           (error_response ("Failed to update booking status: " +:+ str e),
            db_rollback db)
       end).

(** [len(participants)] *)
Definition len (participants : option (list fields)) : M (list fields) :=
  match participants with
  | Some ps => ret ps
  | None => raise (TypeError "object of type 'NoneType' has no len()")
  end.

(** [{"doctype": "Booking Participant", **p}] *)
Definition tag_participant (p : fields) : fields :=
  p ∪ {["doctype" := "Booking Participant"]}.

Definition declared_fields : list string :=
  (filter (λ df, truthy df.1 = true ∧
                 df.2 ∉ ["Section Break"; "Column Break"]) meta_fields).*1.

Definition project (row : fields) : list (string * option string) :=
  (λ field, (field, row !! field)) <$> declared_fields.

Definition update_manifest_body (w : write_outcome) (name : string)
    (supplied : option (list fields)) : M Response.t :=
  booking ← get_doc_Booking name;
  ps ← len supplied;
  if decide (Z.of_nat (length ps) > quantity booking)
  then raise (ValueError "Manifest has too many participants")
  else
    let booking := set_participants [] booking in
    let booking :=
      foldl (λ b p, set_participants (participants b ++ [tag_participant p]) b)
            booking ps in
    save w name booking;;
    db_commit;;
    ret (success_response
           (ManifestData name (booking_name booking) (status booking)
              (project <$> participants booking))
           "Booking status updated successfully").

Definition update_manifest (w : write_outcome) (name : string)
    (participants : option (list fields)) : DB → Response.t * DB :=
  try_except (update_manifest_body w name participants)
    (λ e db,
       match e with
       | DoesNotExistError _ =>
           (error_response ("Booking '" +:+ name +:+ "' not found"), db)
       | _ =>
           (error_response ("Failed to update booking status: " +:+ str e),
            db_rollback db)
       end).

End BookingApi.

(** ** Query primitives used by the Scheduled Trips controller *)

#[global] Instance outcome_ret : MRet outcome := @Ok.
#[global] Instance outcome_bind : MBind outcome :=
  λ A B k m, match m with Ok a => k a | Raise e => Raise e end.

(** The rows of a table, in the order the store retrieves them. *)
Definition rows {A} (tab : gmap string A) : list (string * A) := map_to_list tab.

(** The value of a column of [tabBooking], for the columns this
    development carries: the name and the fields of [Booking] that are not
    child tables.  The bookkeeping columns the framework adds to every
    table (owner, creation, modified, docstatus, ...) are not carried, and
    "quantity" is compared through its decimal text; the properties below
    that take filters from a caller are stated for the text columns. *)
Definition column_value (field : string) (row : string * Booking)
    : option string :=
  if decide (field = "name") then Some row.1
  else if decide (field = "booking_name") then Some (booking_name row.2)
  else if decide (field = "email") then Some (email row.2)
  else if decide (field = "contact_number") then Some (contact_number row.2)
  else if decide (field = "package") then Some (package row.2)
  else if decide (field = "booking_date") then Some (booking_date row.2)
  else if decide (field = "status") then Some (status row.2)
  else if decide (field = "quantity") then Some (pretty (quantity row.2))
  else None.

(** A dict of filters is a conjunction of equalities, one per key. *)
Definition matches (filters : fields) (row : string * Booking) : Prop :=
  map_Forall (λ field value, column_value field row = Some value) filters.

#[global] Instance matches_dec filters row : Decision (matches filters row).
Proof. unfold matches. apply _. Defined.

Definition is_column (field : string) : bool :=
  bool_decide (field ∈ ["name"; "booking_name"; "email"; "contact_number";
                        "package"; "booking_date"; "status"; "quantity"]).

(** [frappe.db.get_all("Booking", filters=filters, fields="*")].  A filter
    on a field that [tabBooking] does not have is a query error; so is, here,
    a filter on a bookkeeping column, which [column_value] does not carry:
    no property below is stated for such filters. *)
Definition get_all_Booking (t : Tables) (filters : fields)
    : outcome (list (string * Booking)) :=
  if decide (map_Forall (λ field _, is_column field = true) filters)
  then Ok (filter (matches filters) (rows (tabBooking t)))
  else Raise (OtherError "Unknown column in where clause").

(** [frappe.db.get_value("Booking", filters, "*")]: the first match. *)
Definition get_value_Booking (t : Tables) (filters : fields)
    : outcome (option (string * Booking)) :=
  l ← get_all_Booking t filters; Ok (head l).

Definition get_doc (doctype : string) {A} (tab : gmap string A) (name : string)
    : outcome A :=
  match tab !! name with
  | Some d => Ok d
  | None => Raise (DoesNotExistError (not_found_msg doctype name))
  end.

(** [frappe.throw(msg)] raises [ValidationError]. *)
Definition throw {A} (msg : string) : outcome A := Raise (ValidationError msg).

(** The rows of a child table whose parent is one of [parents]
    ([{"parent": ["in", parents], "parenttype": "Booking"}]); each row is
    paired with its parent. *)
Definition get_all_children {A} (child : Booking → list A) (t : Tables)
    (parents : list string) : list (string * A) :=
  rows (tabBooking t) ≫=
    λ row, if decide (row.1 ∈ parents)
           then (λ c, (row.1, c)) <$> child row.2 else [].

(** [GROUP BY key] with one aggregate folded over each group; groups come
    out in the order their first row was met. *)
Section GroupBy.
Context {K V A : Type} `{EqDecision K}.
Variable init : V → A.
Variable step : A → V → A.

Fixpoint upsert (k : K) (v : V) (acc : list (K * A)) : list (K * A) :=
  match acc with
  | [] => [(k, init v)]
  | (k', a) :: acc' =>
      if decide (k = k') then (k', step a v) :: acc'
      else (k', a) :: upsert k v acc'
  end.

Definition group_by (l : list (K * V)) : list (K * A) :=
  foldl (λ acc kv, upsert kv.1 kv.2 acc) [] l.

(** What the aggregate of group [k] is, in terms of the rows of [l]
    that carry key [k]. *)
Definition aggregate_of (l : list (K * V)) (k : K) (a : A) : Prop :=
  ∃ v vs, (filter (λ kv, kv.1 = k) l).*2 = v :: vs ∧
          a = foldl step (init v) vs.
End GroupBy.

(** [for idx, item in enumerate(l, start=1): item['idx'] = idx] *)
Definition enumerate1 {A} (l : list A) : list (nat * A) :=
  imap (λ i x, (S i, x)) l.

(** ** doctype/scheduled_trips/scheduled_trips.py *)

Inductive filters_value :=
  | FiltersList (l : list (list string))
  | FiltersDict (d : fields).

Inductive filters_arg :=
  | Text (s : string)
  | Parsed (f : filters_value).

Record Args := {
  limit_start : option Z;
  limit_page_length : option Z;
  filters : option filters_arg
}.

Definition no_args : Args :=
  {| limit_start := None; limit_page_length := None; filters := None |}.

(** One row of the listing query. *)
Module TripRow.
Record t := {
  name : string;
  booking_date : string;
  package : string;
  resource : string;
  resource_name : string;
  capacity : Z;
  quantity : Z;
  id : option string
}.
End TripRow.

(** The document [load_from_db] initialises. *)
Module ScheduledTrips.
Record t := {
  name : string;
  booking_date : string;
  package : string;
  capacity : Z;
  quantity : Z;
  bookings : list (nat * (string * Booking));
  participants : list (nat * (string * fields));
  variation_quantity : list (nat * (string * Z))
}.
End ScheduledTrips.

Inductive condition :=
  | b_package (v : string)
  | b_booking_date (v : string).

Definition holds (c : condition) (b : Booking) : Prop :=
  match c with
  | b_package v => package b = v
  | b_booking_date v => booking_date b = v
  end.

#[global] Instance holds_dec c b : Decision (holds c b).
Proof. destruct c; simpl; apply _. Defined.

(** A row of [tabBooking b INNER JOIN tabPackage p INNER JOIN tabResource r]. *)
Record Joined := {
  b_name : string;
  b : Booking;
  p : Package;
  r : Resource
}.

Definition join_row (t : Tables) (row : string * Booking) : option Joined :=
  pk ← tabPackage t !! package row.2;
  rs ← tabResource t !! resource pk;
  Some {| b_name := row.1; b := row.2; p := pk; r := rs |}.

Definition join (t : Tables) : list Joined :=
  omap (join_row t) (rows (tabBooking t)).

Definition where_clause (conditions : list condition) (j : Joined) : Prop :=
  status (b j) = "Approved" ∧ Forall (λ c, holds c (b j)) conditions.

#[global] Instance where_clause_dec cs j : Decision (where_clause cs j).
Proof. unfold where_clause. apply _. Defined.

Definition group_key (j : Joined) : string * string :=
  (package (b j), booking_date (b j)).

(** The select list over one group: the columns of the group's first row
    and [SUM(b.quantity)]. *)
Definition select (g : (string * string) * (Joined * Z)) : TripRow.t :=
  let j := g.2.1 in
  {| TripRow.name := b_name j;
     TripRow.booking_date := booking_date (b j);
     TripRow.package := package_name (p j);
     TripRow.resource := resource (p j);
     TripRow.resource_name := resource_name (r j);
     TripRow.capacity := capacity (r j);
     TripRow.quantity := g.2.2;
     TripRow.id := None |}.

Definition grouped (t : Tables) (conditions : list condition)
    : list ((string * string) * (Joined * Z)) :=
  group_by (λ j, (j, quantity (b j)))
           (λ a j, (a.1, a.2 + quantity (b j)))
           ((λ j, (group_key j, j)) <$> filter (where_clause conditions) (join t)).

(** [ORDER BY b.booking_date ASC, p.package_name ASC] *)
Definition order_by (r1 r2 : TripRow.t) : Prop :=
  (TripRow.booking_date r1 ≠ TripRow.booking_date r2 ∧
   String.le (TripRow.booking_date r1) (TripRow.booking_date r2)) ∨
  (TripRow.booking_date r1 = TripRow.booking_date r2 ∧
   String.le (TripRow.package r1) (TripRow.package r2)).

#[global] Instance order_by_dec : RelDecision order_by.
Proof. intros r1 r2. unfold order_by. apply _. Defined.

(** [LIMIT n OFFSET m]; a negative bound is a query error. *)
Definition limit_offset {A} (n m : Z) (l : list A) : outcome (list A) :=
  if decide (n < 0 ∨ m < 0)
  then Raise (OtherError "You have an error in your SQL syntax")
  else Ok (take (Z.to_nat n) (drop (Z.to_nat m) l)).

(** The listing query of [get_list]. *)
Definition sql (t : Tables) (conditions : list condition)
    (limit_page_length limit_start : Z) : outcome (list TripRow.t) :=
  limit_offset limit_page_length limit_start
    (merge_sort order_by (select <$> grouped t conditions)).

Definition with_id (row : TripRow.t) : TripRow.t :=
  {| TripRow.name := TripRow.name row;
     TripRow.booking_date := TripRow.booking_date row;
     TripRow.package := TripRow.package row;
     TripRow.resource := TripRow.resource row;
     TripRow.resource_name := TripRow.resource_name row;
     TripRow.capacity := TripRow.capacity row;
     TripRow.quantity := TripRow.quantity row;
     TripRow.id :=
       Some (TripRow.package row +:+ "-" +:+ TripRow.booking_date row) |}.

Definition simple_filters_to_dict (filters : list (list string)) : fields :=
  foldl (λ out f,
           match f with
           | [_; fieldname; op; value] =>
               if decide (op = "=") then <[fieldname := value]> out else out
           | _ => out
           end) ∅ filters.

(** [filters.get(key)] when truthy *)
Definition get_truthy (filters : fields) (key : string) : option string :=
  match filters !! key with
  | Some v => if truthy v then Some v else None
  | None => None
  end.

Section ScheduledTripsController.

(** [json.loads] / [frappe.parse_json] on the text form of the filters. *)
Variable json_loads : string → filters_value.

Definition normalize (default : filters_value) (arg : option filters_arg)
    : fields :=
  let filters :=
    match arg with
    | None => default
    | Some (Text s) => json_loads s
    | Some (Parsed f) => f
    end in
  match filters with
  | FiltersList l => simple_filters_to_dict l
  | FiltersDict d => d
  end.

Definition conditions_of (filters : fields) : list condition :=
  match get_truthy filters "package" with
  | Some v => [b_package v]
  | None => []
  end ++
  match get_truthy filters "booking_date" with
  | Some v => [b_booking_date v]
  | None => []
  end.

Definition get_list (t : Tables) (args : option Args)
    : outcome (list TripRow.t) :=
  let args := default no_args args in
  let limit_start := default 0 (limit_start args) in
  let limit_page_length := default 20 (limit_page_length args) in
  let filters := normalize (FiltersList []) (filters args) in
  results ← sql t (conditions_of filters) limit_page_length limit_start;
  Ok (fmap (M := list) with_id results).

Definition get_count (t : Tables) (args : option Args) : outcome nat :=
  let args := default no_args args in
  let user_filters := normalize (FiltersDict ∅) (filters args) in
  let filters := <["status" := "Approved"]> user_filters in
  found ← get_all_Booking t filters;
  Ok (length (group_by (λ _ : unit, 1%nat) (λ n _, S n)
                ((λ row : string * Booking,
                    ((package row.2, booking_date row.2), tt)) <$> found))).

Definition load_from_db (t : Tables) (name : string)
    : outcome ScheduledTrips.t :=
  row_doc ← get_value_Booking t {["status" := "Approved"; "name" := name]};
  match row_doc with
  | None => throw "Scheduled Trip not found"
  | Some row_doc =>
      package_doc ← get_doc "Package" (tabPackage t) (package row_doc.2);
      resource_doc ← get_doc "Resource" (tabResource t) (resource package_doc);
      bookings_doc ← get_all_Booking t
        {["status" := "Approved";
          "booking_date" := booking_date row_doc.2;
          "package" := package row_doc.2]};
      let participants_doc :=
        get_all_children participants t (bookings_doc.*1) in
      let variations_doc :=
        group_by (λ q : Z, q) Z.add
          ((λ c : string * VariationQuantity,
              (variation c.2, line_quantity c.2))
             <$> get_all_children variation_quantity t (bookings_doc.*1)) in
      let total_quantity :=
        sum_list_Z ((λ b : string * Booking, quantity b.2) <$> bookings_doc) in
      Ok {| ScheduledTrips.name := name;
            ScheduledTrips.booking_date := booking_date row_doc.2;
            ScheduledTrips.package := package row_doc.2;
            ScheduledTrips.capacity := capacity resource_doc;
            ScheduledTrips.quantity := total_quantity;
            ScheduledTrips.bookings := enumerate1 bookings_doc;
            ScheduledTrips.participants := enumerate1 participants_doc;
            ScheduledTrips.variation_quantity := enumerate1 variations_doc |}
  end.

End ScheduledTripsController.

(** ** Reference notions the properties are stated with *)

(** The Approved bookings of one (package, booking_date). *)
Definition constituents (t : Tables) (pk d : string) : list (string * Booking) :=
  filter (λ row : string * Booking,
            status row.2 = "Approved" ∧ package row.2 = pk ∧
            booking_date row.2 = d)
         (rows (tabBooking t)).

(** All line items of a list of bookings. *)
Definition line_items (cs : list (string * Booking)) : list VariationQuantity :=
  cs ≫= λ row, variation_quantity row.2.

(** The quantity booked of one variation over a list of bookings. *)
Definition variation_total (cs : list (string * Booking)) (v : string) : Z :=
  sum_list_Z (line_quantity <$> filter (λ li, variation li = v) (line_items cs)).

(** [len(f) == 4 and f[2] == "="] *)
Definition honored (f : list string) : Prop :=
  length f = 4%nat ∧ f !! 2%nat = Some "=".

(** The equality constraint a list-style filter stands for. *)
Definition constraint_of (f : list string) : option (string * string) :=
  match f with
  | [_; fieldname; op; value] =>
      if decide (op = "=") then Some (fieldname, value) else None
  | _ => None
  end.

(** The bookings that take part in the listing under [conditions]. *)
Definition listed (t : Tables) (conditions : list condition)
    : list (string * Booking) :=
  filter (λ row : string * Booking,
            status row.2 = "Approved" ∧
            Forall (λ c, holds c row.2) conditions ∧
            is_Some (join_row t row))
         (rows (tabBooking t)).

Definition trip_key (row : string * Booking) : string * string :=
  (package row.2, booking_date row.2).

(** ** Sample collaborators and a sample store, used in the examples *)
Module Sample.

Definition getdate (s : string) : exn + string :=
  if decide (String.length s = 10%nat) then inr s
  else inl (ValueError ("Unknown string format: " +:+ s)).

Definition validate_email_address (s : string) : string :=
  match index 0 "@" s with Some _ => s | None => EmptyString end.

Definition autoname (t : Tables) (b : Booking) : string :=
  "BK-" +:+ booking_name b.

Definition meta_fields : list (string * string) :=
  [("full_name", "Data"); ("details", "Section Break"); ("age", "Int")].

Definition json_loads (s : string) : filters_value := FiltersList [].

Definition booking (pk d st : string) (q : Z) (e : string) : Booking :=
  {| booking_name := "Trip of " +:+ e; email := e; contact_number := "012";
     package := pk; booking_date := d; status := st; quantity := q;
     participants := [{["full_name" := "Ann"]}];
     special_requests := [];
     variation_quantity := [{| variation := "Adult"; line_quantity := q |}] |}.

Definition tables : Tables :=
  {| tabBooking :=
       {[ "B1" := booking "P1" "2024-06-01" "Approved" 3 "a@x.org";
          "B2" := booking "P1" "2024-06-01" "Approved" 2 "b@x.org";
          "B3" := booking "P2" "2024-05-01" "Approved" 4 "b@x.org";
          "B4" := booking "P2" "2024-05-01" "Pending" 4 "b@x.org";
          "B5" := booking "P2" "2024-05-02" "Created" 1 "c@x.org" ]};
     tabPackage :=
       {[ "P1" := {| package_name := "Island tour"; resource := "R1" |};
          "P2" := {| package_name := "Reef tour"; resource := "R1" |} ]};
     tabResource := {[ "R1" := {| resource_name := "Boat"; capacity := 10 |} ]} |}.

Definition db : DB := {| committed := tables; working := tables |}.

Definition email_filter : option Args :=
  Some {| limit_start := None; limit_page_length := None;
          filters := Some (Parsed (FiltersDict {["email" := "a@x.org"]})) |}.

End Sample.

(** ** Further notions used by the later properties *)

(** [except ValueError] *)
Definition is_ValueError (e : exn) : bool :=
  match e with ValueError _ => true | _ => false end.

(** The columns of [tabBooking] that hold text, as a filter names them. *)
Definition text_columns : list string :=
  ["name"; "booking_name"; "email"; "contact_number"; "package";
   "booking_date"; "status"].


(** A condition of the listing query, read on a group key. *)
Definition holds_key (c : condition) (k : string * string) : Prop :=
  match c with
  | b_package v => k.1 = v
  | b_booking_date v => k.2 = v
  end.

#[global] Instance holds_key_dec c k : Decision (holds_key c k).
Proof. destruct c; simpl; apply _. Defined.

(** What the filters [d] of a listing ask of a booking: each of "package"
    and "booking_date" that has a non-empty value is matched exactly. *)
Definition passes (d : fields) (bk : Booking) : Prop :=
  (∀ v, d !! "package" = Some v → truthy v = true → package bk = v) ∧
  (∀ v, d !! "booking_date" = Some v → truthy v = true →
        booking_date bk = v).

(** ** Sample listings over the sample store *)
Module SampleTrips.

Definition blank : TripRow.t :=
  {| TripRow.name := EmptyString; TripRow.booking_date := EmptyString;
     TripRow.package := EmptyString; TripRow.resource := EmptyString;
     TripRow.resource_name := EmptyString; TripRow.capacity := 0;
     TripRow.quantity := 0; TripRow.id := None |}.

Definition rows_of (o : outcome (list TripRow.t)) : list TripRow.t :=
  match o with Ok page => page | Raise _ => [] end.

(** The unfiltered first page. *)
Definition listing : list TripRow.t :=
  Eval vm_compute in rows_of (get_list Sample.json_loads Sample.tables None).

Definition first_row : TripRow.t := Eval vm_compute in hd blank listing.

(** The first page for one booking date. *)
Definition june : option Args :=
  Some {| limit_start := None; limit_page_length := None;
          filters := Some (Parsed (FiltersDict
                       {["booking_date" := "2024-06-01"]})) |}.

Definition june_listing : list TripRow.t :=
  Eval vm_compute in rows_of (get_list Sample.json_loads Sample.tables june).

Definition june_row : TripRow.t := Eval vm_compute in hd blank june_listing.

(** Every Approved booking of the sample store joins to a package and a
    resource. *)
Definition joins (t : Tables) (n : string) (bk : Booking) : Prop :=
  status bk = "Approved" → is_Some (join_row t (n, bk)).

#[global] Instance joins_dec t n bk : Decision (joins t n bk).
Proof. unfold joins. apply _. Defined.

Definition has_package (n : string) (bk : Booking) : Prop :=
  status bk = "Approved" → package bk ≠ EmptyString.

#[global] Instance has_package_dec n bk : Decision (has_package n bk).
Proof. unfold has_package. apply _. Defined.

End SampleTrips.

(** * Properties of the booking API *)

Ltac run_body :=
  repeat (cbn [fst snd] in * ||
          unfold try_except, mbind, M_bind, bind, mret, M_ret, ret, raise, id in *).

Lemma get_doc_Booking_Some name b db :
  tabBooking (working db) !! name = Some b →
  get_doc_Booking name db = (Ok b, db).
Proof. unfold get_doc_Booking. by intros ->. Qed.

Lemma get_doc_Booking_None name db :
  tabBooking (working db) !! name = None →
  get_doc_Booking name db =
    (Raise (DoesNotExistError (not_found_msg "Booking" name)), db).
Proof. unfold get_doc_Booking. by intros ->. Qed.

Lemma finalize_body_Created w name b db :
  tabBooking (working db) !! name = Some b →
  status b = "Created" →
  finalize_body w name db =
    (save w name (set_status "Pending" b);; db_commit;;
     mret (success_response
            (StatusData name (booking_name b) "Pending")
            "Booking status updated successfully")) db.
Proof.
  intros Hb Hs. unfold finalize_body. run_body.
  rewrite (get_doc_Booking_Some _ _ _ Hb).
  case_decide; [congruence|]. done.
Qed.

Lemma finalize_body_not_Created w name b db :
  tabBooking (working db) !! name = Some b →
  status b ≠ "Created" →
  finalize_body w name db =
    (Raise (ValueError ("Booking '" +:+ name +:+ "' already finalized")), db).
Proof.
  intros Hb Hs. unfold finalize_body. run_body.
  rewrite (get_doc_Booking_Some _ _ _ Hb).
  case_decide; [done|]. tauto.
Qed.

Lemma finalize_body_missing w name db :
  tabBooking (working db) !! name = None →
  finalize_body w name db =
    (Raise (DoesNotExistError (not_found_msg "Booking" name)), db).
Proof.
  intros Hb. unfold finalize_body. run_body.
  by rewrite (get_doc_Booking_None _ _ Hb).
Qed.

Lemma finalize_Created name b db :
  tabBooking (working db) !! name = Some b →
  status b = "Created" →
  finalize Stored name db =
    (success_response (StatusData name (booking_name b) "Pending")
       "Booking status updated successfully",
     {| committed := put_booking name (set_status "Pending" b) (working db);
        working := put_booking name (set_status "Pending" b) (working db) |}).
Proof.
  intros Hb Hs. unfold finalize. run_body.
  by rewrite (finalize_body_Created _ _ _ _ Hb Hs).
Qed.

Lemma finalize_body_Raise w name db e db1 :
  finalize_body w name db = (Raise e, db1) → committed db1 = committed db.
Proof.
  unfold finalize_body, get_doc_Booking, save, db_commit. run_body.
  repeat case_match; simplify_eq/=; try done; intros; simplify_eq/=; done.
Qed.

(** C1.  With the store accepting the write, [finalize] answers success
    exactly when the booking exists with status "Created" (and whatever
    the store does, it answers success only then); the stored status is
    then "Pending" and any further [finalize] of it raises "already
    finalized".  In any other status it raises the same [ValueError]
    (reported as "Failed to update booking status: ..."), and for a
    missing booking [DoesNotExistError] ("Booking '...' not found"). *)
Theorem finalize_only_from_Created (name : string) (db : DB) :
  let res := finalize Stored name db in
  let finalized :=
    ValueError ("Booking '" +:+ name +:+ "' already finalized") in
  (Response.status res.1 = "success" ↔
     ∃ b, tabBooking (working db) !! name = Some b ∧ status b = "Created") ∧
  (∀ w, Response.status (finalize w name db).1 = "success" →
     ∃ b, tabBooking (working db) !! name = Some b ∧ status b = "Created") ∧
  (∀ b, tabBooking (working db) !! name = Some b → status b = "Created" →
     committed res.2 = put_booking name (set_status "Pending" b) (working db) ∧
     working res.2 = committed res.2 ∧
     ∀ w, finalize_body w name res.2 = (Raise finalized, res.2) ∧
          finalize w name res.2 =
            (error_response
               ("Failed to update booking status: " +:+ str finalized),
             res.2)) ∧
  (∀ w b, tabBooking (working db) !! name = Some b → status b ≠ "Created" →
     finalize_body w name db = (Raise finalized, db) ∧
     finalize w name db =
       (error_response ("Failed to update booking status: " +:+ str finalized),
        db_rollback db)) ∧
  (∀ w, tabBooking (working db) !! name = None →
     finalize_body w name db =
       (Raise (DoesNotExistError (not_found_msg "Booking" name)), db) ∧
     finalize w name db =
       (error_response ("Booking '" +:+ name +:+ "' not found"), db)).
Proof.
  intros res finalized. subst res.
  assert (Honly : ∀ w, Response.status (finalize w name db).1 = "success" →
            ∃ b, tabBooking (working db) !! name = Some b ∧ status b = "Created").
  { intros w. unfold finalize. run_body.
    destruct (tabBooking (working db) !! name) as [b|] eqn:Hb.
    - destruct (decide (status b = "Created")) as [Hs|Hs]; [eauto|].
      rewrite (finalize_body_not_Created _ _ _ _ Hb Hs). discriminate.
    - rewrite (finalize_body_missing _ _ _ Hb). discriminate. }
  split; [|split; [|split; [|split]]].
  - split; [apply Honly|].
    intros (b & Hb & Hs). by rewrite (finalize_Created _ _ _ Hb Hs).
  - apply Honly.
  - intros b Hb Hs. rewrite (finalize_Created _ _ _ Hb Hs). simpl.
    split; [done|]. split; [done|]. intros w.
    assert (Hne : status (set_status "Pending" b) ≠ "Created") by done.
    unfold finalize. run_body.
    rewrite (finalize_body_not_Created w name (set_status "Pending" b));
      [|simpl; apply lookup_insert_eq|done].
    split; [done|]. simpl. by unfold db_rollback.
  - intros w b Hb Hs. unfold finalize. run_body.
    by rewrite (finalize_body_not_Created _ _ _ _ Hb Hs).
  - intros w Hb. unfold finalize. run_body.
    by rewrite (finalize_body_missing _ _ _ Hb).
Qed.

Section ManifestFacts.
Variable meta_fields : list (string * string).

Lemma foldl_append_participants ps b :
  foldl (λ b p, set_participants (participants b ++ [tag_participant p]) b) b ps
  = set_participants (participants b ++ (tag_participant <$> ps)) b.
Proof.
  revert b. induction ps as [|p ps IH]; intros b; simpl.
  - rewrite app_nil_r. by destruct b.
  - rewrite IH. simpl. by rewrite <- app_assoc.
Qed.

Lemma update_manifest_body_fits w name b ps db :
  tabBooking (working db) !! name = Some b →
  Z.of_nat (length ps) ≤ quantity b →
  update_manifest_body meta_fields w name (Some ps) db =
    (save w name (set_participants (tag_participant <$> ps) b);; db_commit;;
     mret (success_response
            (ManifestData name (booking_name b) (status b)
               (project meta_fields <$> (tag_participant <$> ps)))
            "Booking status updated successfully")) db.
Proof.
  intros Hb Hq. unfold update_manifest_body, len. run_body.
  rewrite (get_doc_Booking_Some _ _ _ Hb).
  case_decide; [lia|]. by rewrite foldl_append_participants.
Qed.

Lemma update_manifest_body_too_many w name b ps db :
  tabBooking (working db) !! name = Some b →
  Z.of_nat (length ps) > quantity b →
  update_manifest_body meta_fields w name (Some ps) db =
    (Raise (ValueError "Manifest has too many participants"), db).
Proof.
  intros Hb Hq. unfold update_manifest_body, len. run_body.
  rewrite (get_doc_Booking_Some _ _ _ Hb).
  case_decide; [done|lia].
Qed.

Lemma update_manifest_body_omitted w name b db :
  tabBooking (working db) !! name = Some b →
  update_manifest_body meta_fields w name None db =
    (Raise (TypeError "object of type 'NoneType' has no len()"), db).
Proof.
  intros Hb. unfold update_manifest_body, len. run_body.
  by rewrite (get_doc_Booking_Some _ _ _ Hb).
Qed.

Lemma update_manifest_body_missing w name supplied db :
  tabBooking (working db) !! name = None →
  update_manifest_body meta_fields w name supplied db =
    (Raise (DoesNotExistError (not_found_msg "Booking" name)), db).
Proof.
  intros Hb. unfold update_manifest_body. run_body.
  by rewrite (get_doc_Booking_None _ _ Hb).
Qed.

Lemma update_manifest_body_Raise w name supplied db e db1 :
  update_manifest_body meta_fields w name supplied db = (Raise e, db1) →
  committed db1 = committed db.
Proof.
  unfold update_manifest_body, get_doc_Booking, len, save, db_commit.
  run_body.
  repeat case_match; simplify_eq/=; try done; intros; simplify_eq/=; done.
Qed.

Lemma tag_participant_lookup p k :
  tag_participant p !! k =
    if decide (k = "doctype")
    then Some (default "Booking Participant" (p !! "doctype"))
    else p !! k.
Proof.
  unfold tag_participant. case_decide as Hk.
  - subst k. destruct (p !! "doctype") as [v|] eqn:Hp; simpl.
    + by apply lookup_union_Some_l.
    + rewrite lookup_union_r by done. by rewrite lookup_singleton_eq.
  - destruct (p !! k) as [v|] eqn:Hp.
    + by apply lookup_union_Some_l.
    + rewrite lookup_union_r by done. by rewrite lookup_singleton_ne.
Qed.

(** C2.  For a stored booking with quantity [q]: more than [q]
    participants raise "Manifest has too many participants", nothing is
    committed and the roster read back is the old one; with at most [q]
    (and the store accepting the write) the call succeeds and the
    committed booking has as its roster exactly the supplied rows, in
    their order, whatever the old roster was, every other field being as
    before; each stored row is the supplied one with "doctype" set to
    "Booking Participant" unless the row itself gives a doctype. *)
Theorem update_manifest_ceiling (name : string) (b : Booking)
    (ps : list fields) (db : DB) :
  tabBooking (working db) !! name = Some b →
  (Z.of_nat (length ps) > quantity b →
     ∀ w, let res := update_manifest meta_fields w name (Some ps) db in
       update_manifest_body meta_fields w name (Some ps) db =
         (Raise (ValueError "Manifest has too many participants"), db) ∧
       res.1 = error_response
                 "Failed to update booking status: Manifest has too many participants" ∧
       committed res.2 = committed db ∧
       working res.2 = committed db ∧
       (working db = committed db →
          tabBooking (working res.2) !! name = Some b)) ∧
  (Z.of_nat (length ps) ≤ quantity b →
     let res := update_manifest meta_fields Stored name (Some ps) db in
     Response.status res.1 = "success" ∧
     tabBooking (committed res.2) !! name =
       Some (set_participants (tag_participant <$> ps) b) ∧
     working res.2 = committed res.2 ∧
     (∃ b', tabBooking (committed res.2) !! name = Some b' ∧
        participants b' = tag_participant <$> ps ∧
        length (participants b') = length ps ∧
        (∀ i p, ps !! i = Some p →
           participants b' !! i = Some (tag_participant p)) ∧
        booking_name b' = booking_name b ∧ email b' = email b ∧
        contact_number b' = contact_number b ∧ package b' = package b ∧
        booking_date b' = booking_date b ∧ status b' = status b ∧
        quantity b' = quantity b ∧
        special_requests b' = special_requests b ∧
        variation_quantity b' = variation_quantity b) ∧
     (∀ n, n ≠ name →
        tabBooking (committed res.2) !! n = tabBooking (working db) !! n) ∧
     (∀ p k, k ≠ "doctype" → tag_participant p !! k = p !! k) ∧
     (∀ p, tag_participant p !! "doctype" =
           Some (default "Booking Participant" (p !! "doctype")))).
Proof.
  intros Hb. split.
  - intros Hq w res. subst res. unfold update_manifest. run_body.
    rewrite (update_manifest_body_too_many _ _ _ _ _ Hb Hq). simpl.
    repeat split; try done. by intros <-.
  - intros Hq res. subst res. unfold update_manifest. run_body.
    rewrite (update_manifest_body_fits _ _ _ _ _ Hb Hq). run_body.
    cbn [save db_commit committed working put_booking tabBooking].
    split; [done|]. split; [apply lookup_insert_eq|]. split; [done|].
    split; [|split; [|split]].
    + eexists. split; [apply lookup_insert_eq|].
      cbn [set_participants participants booking_name email contact_number
           package booking_date status quantity special_requests
           variation_quantity].
      split; [done|]. split; [by rewrite length_fmap|].
      split; [|done]. intros i p Hp. by rewrite list_lookup_fmap, Hp.
    + intros n Hn. by apply lookup_insert_ne.
    + intros p k Hk. rewrite tag_participant_lookup. by case_decide.
    + intros p. by rewrite tag_participant_lookup.
Qed.

(** C10.  With the participants argument omitted, [len(None)] raises
    before any write: the answer is the error response, nothing is
    committed and the stored booking, roster included, is as before. *)
Theorem update_manifest_omitted (w : write_outcome) (name : string)
    (b : Booking) (db : DB) :
  tabBooking (working db) !! name = Some b →
  let res := update_manifest meta_fields w name None db in
  update_manifest_body meta_fields w name None db =
    (Raise (TypeError "object of type 'NoneType' has no len()"), db) ∧
  res.1 = error_response
            "Failed to update booking status: object of type 'NoneType' has no len()" ∧
  committed res.2 = committed db ∧
  working res.2 = committed db ∧
  (working db = committed db → tabBooking (working res.2) !! name = Some b).
Proof.
  intros Hb res. subst res. unfold update_manifest. run_body.
  rewrite (update_manifest_body_omitted _ _ _ _ Hb). simpl.
  repeat split; try done. by intros <-.
Qed.

End ManifestFacts.

Section CreateFacts.
Variable getdate : string → exn + string.
Variable validate_email_address : string → string.
Variable autoname : Tables → Booking → string.

Lemma create_body_valid bn em cn pk bd items parts sr pkg d db :
  forallb truthy [bn; em; cn; pk; bd] = true →
  tabPackage (working db) !! pk = Some pkg →
  getdate bd = inr d →
  items ≠ [] →
  truthy (validate_email_address em) = true →
  create_body getdate validate_email_address autoname
    Stored bn em cn pk bd (Some items) parts sr db =
  let b := derive_quantity (new_booking bn em cn pk d items parts sr) in
  let name := autoname (working db) (new_booking bn em cn pk d items parts sr) in
  (Ok (success_response (BookingData name b) "Booking created successfully"),
   {| committed := put_booking name b (working db);
      working := put_booking name b (working db) |}).
Proof.
  intros Hreq Hpk Hd Hitems Hem.
  unfold create_body, get_doc_Package, parse_booking_date.
  rewrite Hreq. run_body. cbn [negb]. rewrite Hpk, Hd.
  destruct items as [|i items]; [done|]. by rewrite Hem.
Qed.

Lemma create_body_Raise_committed w bn em cn pk bd vq parts sr db e db' :
  create_body getdate validate_email_address autoname
    w bn em cn pk bd vq parts sr db = (Raise e, db') →
  committed db' = committed db.
Proof.
  unfold create_body, get_doc_Package, parse_booking_date, insert, db_commit.
  run_body. repeat case_match; simplify_eq/=; try done;
    intros; simplify_eq/=; done.
Qed.

Lemma create_body_Ok w bn em cn pk bd vq parts sr db r db' :
  create_body getdate validate_email_address autoname
    w bn em cn pk bd vq parts sr db = (Ok r, db') →
  ∃ items pkg d,
    w = Stored ∧ vq = Some items ∧ items ≠ [] ∧
    tabPackage (working db) !! pk = Some pkg ∧ getdate bd = inr d ∧
    let b := derive_quantity (new_booking bn em cn pk d items parts sr) in
    let name := autoname (working db) (new_booking bn em cn pk d items parts sr) in
    r = success_response (BookingData name b) "Booking created successfully" ∧
    committed db' = put_booking name b (working db).
Proof.
  unfold create_body, get_doc_Package, parse_booking_date, insert, db_commit.
  run_body. repeat case_match; simplify_eq/=; try done;
    intros; simplify_eq/=; eexists _, _, _; repeat split; try done.
Qed.

Lemma create_body_no_items w bn em cn pk bd vq parts sr db :
  vq = None ∨ vq = Some [] →
  ∃ e, create_body getdate validate_email_address autoname
         w bn em cn pk bd vq parts sr db = (Raise e, db) ∧
       (forallb truthy [bn; em; cn; pk; bd] = true →
        is_Some (tabPackage (working db) !! pk) →
        (∃ d, getdate bd = inr d) →
        e = ValueError "Invalid variations provided").
Proof.
  intros Hvq.
  unfold create_body, get_doc_Package, parse_booking_date.
  run_body.
  destruct (forallb truthy _) eqn:Hreq; simpl.
  2:{ eexists; split; [done|]. done. }
  destruct (tabPackage (working db) !! pk) as [pkg|] eqn:Hpk.
  2:{ eexists; split; [done|]. by intros _ [? ?]. }
  destruct (getdate bd) as [e|d] eqn:Hd.
  { destruct e; (eexists; split; [done|]); by intros _ _ [? ?]. }
  simpl. destruct Hvq as [->| ->]; eexists; split; done.
Qed.

(** C6.  A created booking carries, as its quantity, the sum of the
    quantities of the line items it was created with, and a call with
    valid fields and at least one line item does create it.  With an
    empty or missing sequence [create] always answers the error response
    and commits nothing; the error raised is "Invalid variations provided"
    once the required fields are present, the package resolves and the
    date parses (the checks that run before it raise their own error). *)
Theorem create_quantity (w : write_outcome)
    (bn em cn pk bd : string) (vq : option (list VariationQuantity))
    (parts sr : option (list fields)) (db : DB) :
  let body := create_body getdate validate_email_address autoname
                w bn em cn pk bd vq parts sr in
  let res := create getdate validate_email_address autoname
               w bn em cn pk bd vq parts sr db in
  (Response.status res.1 = "success" →
     ∃ name b items,
       vq = Some items ∧ items ≠ [] ∧
       Response.data res.1 = BookingData name b ∧
       tabBooking (committed res.2) !! name = Some b ∧
       status b = "Created" ∧
       variation_quantity b = items ∧
       quantity b = sum_list_Z (line_quantity <$> items)) ∧
  (∀ items pkg d,
     w = Stored → vq = Some items → items ≠ [] →
     forallb truthy [bn; em; cn; pk; bd] = true →
     tabPackage (working db) !! pk = Some pkg →
     getdate bd = inr d →
     truthy (validate_email_address em) = true →
     Response.status res.1 = "success") ∧
  (vq = None ∨ vq = Some [] →
     ∃ e, body db = (Raise e, db) ∧
       res.1 = error_response ("Failed to create booking: " +:+ str e) ∧
       committed res.2 = committed db ∧
       working res.2 = committed db ∧
       (forallb truthy [bn; em; cn; pk; bd] = true →
        is_Some (tabPackage (working db) !! pk) →
        (∃ d, getdate bd = inr d) →
        e = ValueError "Invalid variations provided")).
Proof.
  intros body res. subst body res. split; [|split].
  - unfold create. run_body.
    destruct (create_body _ _ _ _ _ _ _ _ _ _ _ _ _) as [[r|e] db'] eqn:Hbody;
      [|discriminate].
    intros _. apply create_body_Ok in Hbody
      as (items & pkg & d & -> & -> & Hne & Hpk & Hd & -> & Hc).
    eexists _, _, items. repeat split; try done.
    simpl. rewrite Hc. simpl. apply lookup_insert_eq.
  - intros items pkg d -> -> Hne Hreq Hpk Hd Hem. unfold create. run_body.
    by rewrite (create_body_valid _ _ _ _ _ _ _ _ _ _ _ Hreq Hpk Hd Hne Hem).
  - intros Hvq.
    destruct (create_body_no_items w bn em cn pk bd vq parts sr db Hvq)
      as (e & Hbody & He).
    exists e. unfold create. run_body. rewrite Hbody. done.
Qed.

End CreateFacts.

Section FailurePolicy.
Variable getdate : string → exn + string.
Variable validate_email_address : string → string.
Variable autoname : Tables → Booking → string.
Variable meta_fields : list (string * string).

(** C7.  Whatever [create] raises is answered by the error response with
    empty data and message "Failed to create booking: ..." after a
    rollback.  What [finalize] and [update_manifest] raise is answered the
    same way, with message "Failed to update booking status: ...", except
    [DoesNotExistError], which is answered "Booking '...' not found"
    without rollback.  In every case nothing is committed. *)
Theorem failure_policy (w : write_outcome) (db : DB) (e : exn) (db1 : DB) :
  (∀ bn em cn pk bd vq parts sr,
     create_body getdate validate_email_address autoname
       w bn em cn pk bd vq parts sr db = (Raise e, db1) →
     let res := create getdate validate_email_address autoname
                  w bn em cn pk bd vq parts sr db in
     res.1 = error_response ("Failed to create booking: " +:+ str e) ∧
     committed res.2 = committed db ∧ working res.2 = committed db) ∧
  (∀ name,
     finalize_body w name db = (Raise e, db1) →
     let res := finalize w name db in
     committed res.2 = committed db ∧
     if is_DoesNotExistError e
     then res = (error_response ("Booking '" +:+ name +:+ "' not found"), db1)
     else res.1 = error_response
                    ("Failed to update booking status: " +:+ str e) ∧
          working res.2 = committed db) ∧
  (∀ name supplied,
     update_manifest_body meta_fields w name supplied db = (Raise e, db1) →
     let res := update_manifest meta_fields w name supplied db in
     committed res.2 = committed db ∧
     if is_DoesNotExistError e
     then res = (error_response ("Booking '" +:+ name +:+ "' not found"), db1)
     else res.1 = error_response
                    ("Failed to update booking status: " +:+ str e) ∧
          working res.2 = committed db).
Proof.
  split; [|split].
  - intros bn em cn pk bd vq parts sr Hbody res. subst res.
    assert (Hc := Hbody). apply create_body_Raise_committed in Hc.
    unfold create. run_body. rewrite Hbody. simpl. by rewrite Hc.
  - intros name Hbody res. subst res. unfold finalize. run_body.
    assert (Hc := Hbody). apply finalize_body_Raise in Hc. rewrite Hbody.
    by destruct e.
  - intros name supplied Hbody res. subst res. unfold update_manifest.
    assert (Hc := Hbody). apply update_manifest_body_Raise in Hc.
    run_body. rewrite Hbody.
    by destruct e.
Qed.

End FailurePolicy.

(** * Grouping *)

Lemma filter_none {A} (P : A → Prop) `{∀ x, Decision (P x)} (l : list A) :
  (∀ x, x ∈ l → ¬ P x) → filter P l = [].
Proof.
  intros Hl. destruct (filter P l) as [|x l'] eqn:Hf; [done|].
  assert (x ∈ filter P l) as [HP Hx]%list_elem_of_filter
    by (rewrite Hf; apply elem_of_cons; by left).
  by destruct (Hl x Hx).
Qed.

Section GroupByFacts.
Context {K V A : Type} `{EqDecision K}.
Variable init : V → A.
Variable step : A → V → A.

Lemma upsert_fresh (k : K) v (acc : list (K * A)) :
  k ∉ acc.*1 → upsert init step k v acc = acc ++ [(k, init v)].
Proof.
  induction acc as [|[k' a] acc IH]; simpl; [done|].
  intros Hk. apply not_elem_of_cons in Hk as [Hne Hk].
  case_decide; [done|]. by rewrite IH.
Qed.

Lemma upsert_keys (k : K) v (acc : list (K * A)) :
  (upsert init step k v acc).*1 =
    if decide (k ∈ acc.*1) then acc.*1 else acc.*1 ++ [k].
Proof.
  induction acc as [|[k' a] acc IH].
  - cbn [upsert fmap list_fmap fst app].
    destruct (decide _) as [Hin|Hin]; [by apply elem_of_nil in Hin|done].
  - cbn [upsert]. rewrite fmap_cons. cbn [fst].
    destruct (decide (k = k')) as [->|Hk].
    + rewrite fmap_cons. rewrite decide_True; [done|apply elem_of_cons; by left].
    + rewrite fmap_cons, IH. cbn [fst].
      destruct (decide (k ∈ acc.*1)).
      * rewrite decide_True; [done|apply elem_of_cons; by right].
      * rewrite decide_False; [done|]. intros [?|?]%elem_of_cons; done.
Qed.

Lemma elem_of_upsert (k : K) v (acc : list (K * A)) k' a' :
  NoDup (acc.*1) →
  (k', a') ∈ upsert init step k v acc →
  (k' ≠ k ∧ (k', a') ∈ acc) ∨
  (k' = k ∧ (k ∉ acc.*1) ∧ a' = init v) ∨
  (k' = k ∧ ∃ a, (k, a) ∈ acc ∧ a' = step a v).
Proof.
  induction acc as [|[k0 a0] acc IH]; cbn [upsert]; intros Hnd Hin.
  - apply list_elem_of_singleton in Hin. injection Hin as -> ->.
    right. left. split; [done|]. split; [apply not_elem_of_nil|done].
  - rewrite fmap_cons in Hnd. apply NoDup_cons in Hnd as [Hk0 Hnd].
    cbn [fst] in Hk0. destruct (decide (k = k0)) as [<-|Hk].
    + apply elem_of_cons in Hin as [Heq|Hin].
      * injection Heq as -> ->. right. right. split; [done|].
        exists a0. split; [apply elem_of_cons; by left|done].
      * left. split; [|apply elem_of_cons; by right].
        intros ->. apply Hk0, list_elem_of_fmap. by exists (k, a').
    + apply elem_of_cons in Hin as [Heq|Hin].
      * injection Heq as -> ->. left. split; [done|].
        apply elem_of_cons; by left.
      * destruct (IH Hnd Hin) as [[Hne Hacc]|[(-> & Hnin & ->)|(-> & a & Hacc & ->)]].
        -- left. split; [done|]. apply elem_of_cons; by right.
        -- right. left. split; [done|]. split; [|done].
           rewrite fmap_cons. intros [?|?]%elem_of_cons; done.
        -- right. right. split; [done|]. exists a.
           split; [apply elem_of_cons; by right|done].
Qed.

Lemma group_by_snoc (l : list (K * V)) k v :
  group_by init step (l ++ [(k, v)]) = upsert init step k v (group_by init step l).
Proof. unfold group_by. by rewrite foldl_app. Qed.

Lemma group_by_spec (l : list (K * V)) :
  NoDup (group_by init step l).*1 ∧
  (∀ k, k ∈ (group_by init step l).*1 ↔ k ∈ l.*1) ∧
  (∀ k a, (k, a) ∈ group_by init step l → aggregate_of init step l k a).
Proof.
  induction l as [|[k v] l (Hnd & Hkeys & Hagg)] using rev_ind.
  { split; [constructor|]. split; [done|]. by intros k a ?%elem_of_nil. }
  rewrite group_by_snoc. split; [|split].
  - rewrite upsert_keys. case_decide as Hk; [done|].
    apply NoDup_app. split; [done|]. split; [|apply NoDup_singleton].
    intros x Hx ->%list_elem_of_singleton. done.
  - intros k'. rewrite upsert_keys, fmap_app, elem_of_app. simpl.
    rewrite list_elem_of_singleton, <- Hkeys.
    case_decide as Hk; [|by rewrite elem_of_app, list_elem_of_singleton].
    split; [by left|]. by intros [?| ->].
  - intros k' a' Hup. apply elem_of_upsert in Hup; [|done].
    unfold aggregate_of. rewrite filter_app, fmap_app.
    destruct Hup as [[Hne Hin]|[(-> & Hnin & ->)|(-> & a & Hin & ->)]].
    + destruct (Hagg _ _ Hin) as (v0 & vs & Hf & ->).
      exists v0, vs. rewrite filter_cons_False by (simpl; congruence).
      rewrite filter_nil. simpl. by rewrite app_nil_r.
    + exists v, []. split; [|done].
      rewrite filter_cons_True by done. rewrite filter_nil. simpl.
      assert (filter (λ kv : K * V, kv.1 = k) l = []) as ->; [|done].
      apply filter_none. intros [k0 v0] Hin Heq. simpl in Heq. subst k0.
      apply Hnin, Hkeys, list_elem_of_fmap. by exists (k, v0).
    + destruct (Hagg _ _ Hin) as (v0 & vs & Hf & ->).
      exists v0, (vs ++ [v]). rewrite filter_cons_True by done.
      rewrite filter_nil, Hf. simpl. split; [done|]. by rewrite foldl_app.
Qed.

End GroupByFacts.

(** Filtering on the key commutes with grouping. *)
Section GroupByFilter.
Context {K V A : Type} `{EqDecision K}.
Variable init : V → A.
Variable step : A → V → A.
Variable P : K → Prop.
Context `{∀ k, Decision (P k)}.

Lemma upsert_filter (k : K) (v : V) (acc : list (K * A)) :
  filter (λ ka, P ka.1) (upsert init step k v acc) =
  if decide (P k) then upsert init step k v (filter (λ ka, P ka.1) acc)
  else filter (λ ka, P ka.1) acc.
Proof.
  induction acc as [|[k' a] acc IH].
  - cbn [upsert]. rewrite filter_cons, filter_nil. simpl. by case_decide.
  - cbn [upsert]. destruct (decide (k = k')) as [<-|Hk].
    + destruct (decide (P k)) as [HP|HP].
      * rewrite !filter_cons_True by done. cbn [upsert].
        by rewrite decide_True by done.
      * by rewrite !filter_cons_False by done.
    + destruct (decide (P k')) as [HP'|HP'].
      * rewrite !filter_cons_True, IH by done.
        destruct (decide (P k)); [|done]. cbn [upsert].
        by rewrite decide_False by done.
      * by rewrite !filter_cons_False, IH by done.
Qed.

Lemma group_by_filter (l : list (K * V)) :
  group_by init step (filter (λ kv, P kv.1) l) =
  filter (λ ka, P ka.1) (group_by init step l).
Proof.
  induction l as [|[k v] l IH] using rev_ind; [done|].
  rewrite filter_app, group_by_snoc, upsert_filter, <- IH.
  rewrite filter_cons, filter_nil. simpl. case_decide.
  - by rewrite group_by_snoc.
  - by rewrite app_nil_r.
Qed.
End GroupByFilter.

Lemma length_group_by {K V A} `{Countable K} (init : V → A) (step : A → V → A)
    (l : list (K * V)) :
  length (group_by init step l) = size (list_to_set (C := gset K) l.*1).
Proof.
  destruct (group_by_spec init step l) as (Hnd & Hkeys & _).
  trans (length (group_by init step l).*1); [by rewrite length_fmap|].
  trans (size (list_to_set (C := gset K) (group_by init step l).*1));
    [symmetry; by apply size_list_to_set|].
  f_equal. apply set_eq. intros k. by rewrite !elem_of_list_to_set.
Qed.

(** * The rows of the store *)

Lemma elem_of_rows {A} (tab : gmap string A) (row : string * A) :
  row ∈ rows tab ↔ tab !! row.1 = Some row.2.
Proof. destruct row as [k x]. apply elem_of_map_to_list. Qed.

Lemma rows_key_inj {A} (tab : gmap string A) (r1 r2 : string * A) :
  r1 ∈ rows tab → r2 ∈ rows tab → r1.1 = r2.1 → r1 = r2.
Proof.
  rewrite !elem_of_rows. destruct r1 as [k1 x1], r2 as [k2 x2]; simpl.
  intros H1 H2 ->. congruence.
Qed.

Lemma enumerate1_indices {A} (l : list A) :
  (enumerate1 l).*1 = seq 1 (length l).
Proof.
  unfold enumerate1. rewrite fmap_imap.
  rewrite (imap_ext _ (λ i _, S i)) by done.
  by rewrite imap_seq_0, fmap_S_seq.
Qed.

Lemma enumerate1_items {A} (l : list A) : (enumerate1 l).*2 = l.
Proof.
  unfold enumerate1. rewrite fmap_imap.
  rewrite (imap_ext _ (const id)) by done.
  by rewrite imap_const, list_fmap_id.
Qed.

Lemma enumerate1_lookup {A} (l : list A) (i : nat) (x : A) :
  enumerate1 l !! i = Some (S i, x) ↔ l !! i = Some x.
Proof.
  unfold enumerate1. rewrite list_lookup_imap_Some. split.
  - intros (y & Hy & [= ->]). done.
  - intros Hx. by exists x.
Qed.

(** * Filters *)

Lemma is_column_approved_name name :
  map_Forall (λ field _, is_column field = true)
    ({["status" := "Approved"; "name" := name]} : fields).
Proof.
  apply map_Forall_insert_2; [done|]. by apply map_Forall_singleton.
Qed.

Lemma matches_approved_name name row :
  matches {["status" := "Approved"; "name" := name]} row ↔
  row.1 = name ∧ status row.2 = "Approved".
Proof.
  unfold matches. split.
  - intros Hm. split.
    + assert (column_value "name" row = Some name) as [= ?]; [|done].
      apply Hm. by rewrite lookup_insert_ne, lookup_singleton_eq.
    + assert (column_value "status" row = Some "Approved") as [= ?]; [|done].
      apply Hm. by rewrite lookup_insert_eq.
  - intros [<- Hs]. apply map_Forall_insert_2.
    + unfold column_value; simpl. by rewrite Hs.
    + by apply map_Forall_singleton.
Qed.

Lemma is_column_trip d pk :
  map_Forall (λ field _, is_column field = true)
    ({["status" := "Approved"; "booking_date" := d; "package" := pk]} : fields).
Proof.
  apply map_Forall_insert_2; [done|]. apply map_Forall_insert_2; [done|].
  by apply map_Forall_singleton.
Qed.

Lemma matches_trip d pk row :
  matches {["status" := "Approved"; "booking_date" := d; "package" := pk]} row ↔
  status row.2 = "Approved" ∧ package row.2 = pk ∧ booking_date row.2 = d.
Proof.
  unfold matches. split.
  - intros Hm. split; [|split].
    + assert (column_value "status" row = Some "Approved") as [= ?]; [|done].
      apply Hm. by rewrite lookup_insert_eq.
    + assert (column_value "package" row = Some pk) as [= ?]; [|done].
      apply Hm. by rewrite !lookup_insert_ne, lookup_singleton_eq.
    + assert (column_value "booking_date" row = Some d) as [= ?]; [|done].
      apply Hm. by rewrite lookup_insert_ne, lookup_insert_eq.
  - intros (Hs & <- & <-). apply map_Forall_insert_2.
    { unfold column_value; simpl. by rewrite Hs. }
    apply map_Forall_insert_2; [done|]. by apply map_Forall_singleton.
Qed.

Lemma get_all_Booking_trip t d pk :
  get_all_Booking t {["status" := "Approved"; "booking_date" := d; "package" := pk]}
  = Ok (constituents t pk d).
Proof.
  unfold get_all_Booking. rewrite decide_True by apply is_column_trip.
  f_equal. apply list_filter_iff. intros row. apply matches_trip.
Qed.

Lemma get_value_Booking_approved t name :
  get_value_Booking t {["status" := "Approved"; "name" := name]} =
  Ok (match tabBooking t !! name with
      | Some b => if decide (status b = "Approved") then Some (name, b) else None
      | None => None
      end).
Proof.
  unfold get_value_Booking, get_all_Booking.
  rewrite decide_True by apply is_column_approved_name.
  cbn [mbind outcome_bind]. f_equal.
  destruct (filter _ _) as [|row l] eqn:Hf.
  - simpl. destruct (tabBooking t !! name) as [b|] eqn:Hb; [|done].
    case_decide as Hs; [|done]. exfalso.
    eapply (filter_nil_not_elem_of _ _ (name, b) Hf).
    + by apply matches_approved_name.
    + by apply elem_of_rows.
  - assert (row ∈ filter (matches {["status" := "Approved"; "name" := name]})
                    (rows (tabBooking t))) as Hrow
      by (rewrite Hf; apply elem_of_cons; by left).
    apply list_elem_of_filter in Hrow as [[<- Hs]%matches_approved_name Hrow].
    apply elem_of_rows in Hrow. rewrite Hrow. rewrite decide_True by done.
    by destruct row.
Qed.

(** * Child rows and sums *)

Lemma bind_filter {A B} (P : A → Prop) `{∀ x, Decision (P x)}
    (f : A → list B) (l : list A) :
  l ≫= (λ x, if decide (P x) then f x else []) = filter P l ≫= f.
Proof.
  induction l as [|x l IH]; [done|].
  rewrite bind_cons, IH, filter_cons. by case_decide.
Qed.

Lemma get_all_children_filter {A} (child : Booking → list A) (t : Tables)
    (P : string * Booking → Prop) `{∀ x, Decision (P x)} :
  get_all_children child t (filter P (rows (tabBooking t))).*1 =
  filter P (rows (tabBooking t)) ≫= λ row, (λ c, (row.1, c)) <$> child row.2.
Proof.
  unfold get_all_children. rewrite <- bind_filter.
  apply Forall_bind_ext, Forall_forall. intros row Hrow.
  destruct (decide (P row)) as [HP|HP].
  - rewrite decide_True; [done|]. apply list_elem_of_fmap.
    exists row. split; [done|]. by apply list_elem_of_filter.
  - rewrite decide_False; [done|].
    intros (row' & Hk & [HP' Hrow']%list_elem_of_filter)%list_elem_of_fmap.
    by rewrite (rows_key_inj (tabBooking t) row row') in HP.
Qed.

Lemma foldl_add_sum (z : Z) (l : list Z) : foldl Z.add z l = z + sum_list_Z l.
Proof.
  revert z. induction l as [|x l IH]; intros z; simpl; [lia|].
  rewrite IH. unfold sum_list_Z. simpl. lia.
Qed.

Lemma filter_fmap_key {A B K} `{EqDecision K} (key : A → K) (val : A → B)
    (k : K) (l : list A) :
  (filter (λ kv : K * B, kv.1 = k) ((λ x, (key x, val x)) <$> l)).*2 =
  val <$> filter (λ x, key x = k) l.
Proof.
  induction l as [|x l IH]; [done|].
  rewrite fmap_cons, !filter_cons. simpl.
  case_decide; [rewrite !fmap_cons|]; by rewrite IH.
Qed.

Lemma children_line_items (cs : list (string * Booking)) :
  (λ c : string * VariationQuantity, (variation c.2, line_quantity c.2)) <$>
    (cs ≫= λ row, (λ c, (row.1, c)) <$> variation_quantity row.2) =
  (λ li, (variation li, line_quantity li)) <$> line_items cs.
Proof.
  unfold line_items. induction cs as [|row cs IH]; [done|].
  rewrite !bind_cons, !fmap_app, IH. f_equal.
  rewrite <- list_fmap_compose. done.
Qed.

Section ScheduledTripsFacts.
Variable json_loads : string → filters_value.

Lemma load_from_db_missing t name :
  (∀ b, tabBooking t !! name = Some b → status b ≠ "Approved") →
  load_from_db t name = Raise (ValidationError "Scheduled Trip not found").
Proof.
  intros Hno. unfold load_from_db. rewrite get_value_Booking_approved.
  destruct (tabBooking t !! name) as [b|] eqn:Hb; [|done].
  rewrite decide_False; [done|]. by apply Hno.
Qed.

Lemma load_from_db_approved t name b :
  tabBooking t !! name = Some b → status b = "Approved" →
  load_from_db t name =
    (package_doc ← get_doc "Package" (tabPackage t) (package b);
     resource_doc ← get_doc "Resource" (tabResource t) (resource package_doc);
     let cs := constituents t (package b) (booking_date b) in
     Ok {| ScheduledTrips.name := name;
           ScheduledTrips.booking_date := booking_date b;
           ScheduledTrips.package := package b;
           ScheduledTrips.capacity := capacity resource_doc;
           ScheduledTrips.quantity :=
             sum_list_Z ((λ row : string * Booking, quantity row.2) <$> cs);
           ScheduledTrips.bookings := enumerate1 cs;
           ScheduledTrips.participants :=
             enumerate1 (get_all_children participants t (cs.*1));
           ScheduledTrips.variation_quantity :=
             enumerate1
               (group_by (λ q : Z, q) Z.add
                  ((λ c : string * VariationQuantity,
                      (variation c.2, line_quantity c.2)) <$>
                   get_all_children variation_quantity t (cs.*1))) |}).
Proof.
  intros Hb Hs. unfold load_from_db. rewrite get_value_Booking_approved, Hb.
  rewrite decide_True by done. cbn [mbind outcome_bind snd].
  destruct (get_doc "Package" (tabPackage t) _) as [pkg|e]; [|done].
  cbn [mbind outcome_bind].
  destruct (get_doc "Resource" (tabResource t) _) as [res|e]; [|done].
  cbn [mbind outcome_bind].
  by rewrite get_all_Booking_trip.
Qed.

(** C9.  [load_from_db] throws "Scheduled Trip not found" exactly when no
    Booking of that name has status "Approved"; in particular it does
    for an existing booking in any other status. *)
Theorem load_from_db_not_found (t : Tables) (name : string) :
  (load_from_db t name = Raise (ValidationError "Scheduled Trip not found") ↔
   ¬ ∃ b, tabBooking t !! name = Some b ∧ status b = "Approved") ∧
  (∀ b, tabBooking t !! name = Some b → status b ≠ "Approved" →
     load_from_db t name = Raise (ValidationError "Scheduled Trip not found")).
Proof.
  split.
  - split.
    + intros Hload (b & Hb & Hs).
      rewrite (load_from_db_approved _ _ _ Hb Hs) in Hload.
      unfold get_doc in Hload.
      destruct (tabPackage t !! package b) as [pkg|];
        cbn [mbind outcome_bind] in Hload; [|done].
      destruct (tabResource t !! resource pkg) as [res|];
        cbn [mbind outcome_bind] in Hload; done.
    + intros Hno. apply load_from_db_missing. intros b Hb Hs.
      apply Hno. eauto.
  - intros b Hb Hs. apply load_from_db_missing. intros b' Hb'. congruence.
Qed.

Lemma variations_doc_spec (cs : list (string * Booking)) :
  let variations_doc :=
    group_by (λ q : Z, q) Z.add
      ((λ li, (variation li, line_quantity li)) <$> line_items cs) in
  NoDup variations_doc.*1 ∧
  (∀ v, v ∈ variations_doc.*1 ↔ v ∈ variation <$> line_items cs) ∧
  (∀ v q, (v, q) ∈ variations_doc → q = variation_total cs v).
Proof.
  intros variations_doc. subst variations_doc.
  destruct (group_by_spec (λ q : Z, q) Z.add
              ((λ li, (variation li, line_quantity li)) <$> line_items cs))
    as (Hnd & Hkeys & Hagg).
  split; [done|]. split.
  - intros v. rewrite Hkeys, <- list_fmap_compose. done.
  - intros v q Hin. destruct (Hagg _ _ Hin) as (q0 & qs & Hf & ->).
    unfold variation_total. rewrite <- filter_fmap_key, Hf, foldl_add_sum.
    done.
Qed.

(** C3.  For an Approved representative whose package and resource
    resolve, [load_from_db] builds the trip of all Approved bookings with
    the representative's package and booking date: its quantity is the
    sum of their quantities; its variation rows have one row per
    variation met in their line items, carrying the sum of that
    variation's line quantities; and bookings, participants and variation
    rows are numbered 1, 2, 3, ... *)
Theorem load_from_db_aggregates (t : Tables) (name : string) (b : Booking)
    (pkg : Package) (res : Resource) :
  tabBooking t !! name = Some b →
  status b = "Approved" →
  tabPackage t !! package b = Some pkg →
  tabResource t !! resource pkg = Some res →
  let cs := constituents t (package b) (booking_date b) in
  ∃ trip,
    load_from_db t name = Ok trip ∧
    (name, b) ∈ cs ∧
    ScheduledTrips.quantity trip =
      sum_list_Z ((λ row : string * Booking, quantity row.2) <$> cs) ∧
    (ScheduledTrips.bookings trip).*2 = cs ∧
    (ScheduledTrips.participants trip).*2 =
      (cs ≫= λ row, (λ c, (row.1, c)) <$> participants row.2) ∧
    NoDup (ScheduledTrips.variation_quantity trip).*2.*1 ∧
    (∀ v, v ∈ (ScheduledTrips.variation_quantity trip).*2.*1 ↔
          v ∈ variation <$> line_items cs) ∧
    (∀ i v q, (i, (v, q)) ∈ ScheduledTrips.variation_quantity trip →
              q = variation_total cs v) ∧
    (ScheduledTrips.bookings trip).*1 =
      seq 1 (length (ScheduledTrips.bookings trip)) ∧
    (ScheduledTrips.participants trip).*1 =
      seq 1 (length (ScheduledTrips.participants trip)) ∧
    (ScheduledTrips.variation_quantity trip).*1 =
      seq 1 (length (ScheduledTrips.variation_quantity trip)).
Proof.
  intros Hb Hs Hpkg Hres cs.
  rewrite (load_from_db_approved _ _ _ Hb Hs). unfold get_doc.
  rewrite Hpkg. cbn [mbind outcome_bind]. rewrite Hres.
  cbn [mbind outcome_bind]. eexists. split; [reflexivity|].
  cbn [ScheduledTrips.quantity ScheduledTrips.bookings
       ScheduledTrips.participants ScheduledTrips.variation_quantity].
  fold cs. unfold constituents in cs.
  assert (Hvq : get_all_children variation_quantity t cs.*1 =
                cs ≫= λ row, (λ c, (row.1, c)) <$> variation_quantity row.2)
    by apply get_all_children_filter.
  assert (Hps : get_all_children participants t cs.*1 =
                cs ≫= λ row, (λ c, (row.1, c)) <$> participants row.2)
    by apply get_all_children_filter.
  rewrite Hvq, Hps, children_line_items, !enumerate1_items.
  rewrite !enumerate1_indices. unfold enumerate1. rewrite !length_imap.
  destruct (variations_doc_spec cs) as (Hnd & Hkeys & Hsum).
  split.
  { apply list_elem_of_filter. split; [done|]. by apply elem_of_rows. }
  repeat split; try done.
  - by apply Hkeys.
  - by apply Hkeys.
  - intros i v q Hin. apply Hsum.
    rewrite <- (enumerate1_items (group_by _ _ _)).
    apply list_elem_of_fmap. by exists (i, (v, q)).
Qed.

End ScheduledTripsFacts.

(** * Filter normalisation *)

Lemma constraint_of_honored f : is_Some (constraint_of f) ↔ honored f.
Proof.
  unfold honored, constraint_of.
  destruct f as [|a [|k [|op [|v [|x f]]]]]; simpl;
    try (split; [by intros [? ?]|by intros [? ?]]).
  case_decide as Hop.
  - subst. split; [done|]. intros _. eauto.
  - split; [by intros [? ?]|]. intros [_ [= ?]]. done.
Qed.

Lemma constraint_of_Some f k v :
  constraint_of f = Some (k, v) ↔ ∃ a, f = [a; k; "="; v].
Proof.
  unfold constraint_of.
  destruct f as [|a [|k' [|op [|v' [|x f]]]]]; simpl;
    try (split; [done|by intros [? ?]]).
  case_decide as Hop.
  - subst. split; [intros [= -> ->]; eauto|]. by intros [? [= -> -> ->]].
  - split; [done|]. intros [? [= ? ? ? ?]]. done.
Qed.

Lemma simple_filters_to_dict_snoc l f :
  simple_filters_to_dict (l ++ [f]) =
    match constraint_of f with
    | Some kv => <[kv.1 := kv.2]> (simple_filters_to_dict l)
    | None => simple_filters_to_dict l
    end.
Proof.
  unfold simple_filters_to_dict. rewrite foldl_app. simpl.
  unfold constraint_of.
  destruct f as [|a [|k [|op [|v [|x f]]]]]; try done.
  by case_decide.
Qed.

Lemma simple_filters_to_dict_constraints l :
  simple_filters_to_dict l = list_to_map (reverse (omap constraint_of l)).
Proof.
  induction l as [|f l IH] using rev_ind; [done|].
  rewrite simple_filters_to_dict_snoc, omap_app, reverse_app, IH. simpl.
  destruct (constraint_of f) as [[k v]|]; done.
Qed.

Lemma simple_filters_to_dict_drop l1 f l2 :
  ¬ honored f →
  simple_filters_to_dict (l1 ++ f :: l2) = simple_filters_to_dict (l1 ++ l2).
Proof.
  intros Hf. rewrite !simple_filters_to_dict_constraints, !omap_app. simpl.
  destruct (constraint_of f) as [kv|] eqn:Hc; [|done].
  destruct Hf. apply constraint_of_honored. by rewrite Hc.
Qed.

Lemma conditions_of_recognized (d1 d2 : fields) :
  d1 !! "package" = d2 !! "package" →
  d1 !! "booking_date" = d2 !! "booking_date" →
  conditions_of d1 = conditions_of d2.
Proof. unfold conditions_of, get_truthy. by intros -> ->. Qed.

(** * The listing query *)

#[global] Instance order_by_total : Total order_by.
Proof.
  intros r1 r2. unfold order_by.
  destruct (decide (TripRow.booking_date r1 = TripRow.booking_date r2)) as [Hd|Hd].
  - destruct (total String.le (TripRow.package r1) (TripRow.package r2)).
    + left. by right.
    + right. right. by split.
  - destruct (total String.le (TripRow.booking_date r1) (TripRow.booking_date r2)).
    + left. by left.
    + right. left. by split.
Qed.

#[global] Instance order_by_trans : Transitive order_by.
Proof.
  intros r1 r2 r3. unfold order_by.
  intros [[Hne12 Hle12]|[Heq12 Hp12]] [[Hne23 Hle23]|[Heq23 Hp23]].
  - left. split; [|by etrans].
    intros Heq. rewrite <- Heq in Hle23.
    by apply Hne12, (anti_symm String.le).
  - left. rewrite <- Heq23. by split.
  - left. rewrite Heq12. by split.
  - right. split; [congruence|by etrans].
Qed.

Lemma list_filter_fmap' {A B} (P : B → Prop) `{∀ y, Decision (P y)}
    (f : A → B) (l : list A) :
  filter P (f <$> l) = f <$> filter (λ x, P (f x)) l.
Proof.
  induction l as [|x l IH]; [done|].
  rewrite fmap_cons, !filter_cons, IH. by case_decide.
Qed.

Lemma foldl_sum_step (j0 : Joined) (z : Z) (js : list Joined) :
  foldl (λ (a : Joined * Z) j, (a.1, a.2 + quantity (b j))) (j0, z) js =
  (j0, z + sum_list_Z ((λ j, quantity (b j)) <$> js)).
Proof.
  unfold sum_list_Z. revert z. induction js as [|j js IH]; intros z.
  - simpl. f_equal. lia.
  - cbn [foldl]. rewrite IH, fmap_cons. cbn [foldr fst snd]. f_equal. lia.
Qed.

Lemma join_row_Some t row j :
  join_row t row = Some j →
  b_name j = row.1 ∧ b j = row.2 ∧
  tabPackage t !! package row.2 = Some (p j) ∧
  tabResource t !! resource (p j) = Some (r j).
Proof.
  unfold join_row. intros Hj.
  destruct (tabPackage t !! package row.2) as [pk|]; [|done].
  simpl in Hj. destruct (tabResource t !! resource pk) as [rs|] eqn:Hrs; [|done].
  simpl in Hj. injection Hj as <-. done.
Qed.

Lemma omap_cons' {A B} (f : A → option B) (x : A) (l : list A) :
  omap f (x :: l) =
    match f x with Some y => y :: omap f l | None => omap f l end.
Proof. done. Qed.

Lemma join_listed t conditions :
  (λ j, (b_name j, b j)) <$> filter (where_clause conditions) (join t) =
  listed t conditions.
Proof.
  unfold join, listed. induction (rows (tabBooking t)) as [|row l IH]; [done|].
  rewrite omap_cons'. destruct (join_row t row) as [j|] eqn:Hj.
  - apply join_row_Some in Hj as Hj'. destruct Hj' as (Hn & Hb & _).
    destruct (decide (where_clause conditions j)) as [HW|HW].
    + rewrite (filter_cons_True (where_clause conditions)) by done.
      rewrite filter_cons_True.
      * rewrite fmap_cons, IH, Hn, Hb. by destruct row.
      * destruct HW as [Hs Hc]. rewrite Hb in Hs, Hc. rewrite Hj. eauto.
    + rewrite (filter_cons_False (where_clause conditions)) by done.
      rewrite filter_cons_False; [done|].
      intros (Hs & Hc & _). apply HW. split; by rewrite Hb.
  - rewrite filter_cons_False; [done|]. rewrite Hj. intros (_ & _ & [? ?]). done.
Qed.

Lemma elem_of_join t j :
  j ∈ join t →
  tabBooking t !! b_name j = Some (b j) ∧
  tabPackage t !! package (b j) = Some (p j) ∧
  tabResource t !! resource (p j) = Some (r j).
Proof.
  unfold join. intros (row & Hrow & Hj)%list_elem_of_omap.
  apply join_row_Some in Hj as (-> & -> & ? & ?).
  split; [|done]. by apply elem_of_rows.
Qed.

Lemma grouped_spec t conditions :
  NoDup (grouped t conditions).*1 ∧
  (∀ k, k ∈ (grouped t conditions).*1 ↔ k ∈ trip_key <$> listed t conditions) ∧
  (∀ g, g ∈ grouped t conditions →
     TripRow.booking_date (select g) = g.1.2 ∧
     (∃ pk rs, tabPackage t !! g.1.1 = Some pk ∧
               tabResource t !! resource pk = Some rs ∧
               TripRow.package (select g) = package_name pk ∧
               TripRow.resource (select g) = resource pk ∧
               TripRow.resource_name (select g) = resource_name rs ∧
               TripRow.capacity (select g) = capacity rs) ∧
     TripRow.quantity (select g) =
       sum_list_Z ((λ row : string * Booking, quantity row.2) <$>
                   filter (λ row, trip_key row = g.1) (listed t conditions))).
Proof.
  unfold grouped.
  set (W := filter (where_clause conditions) (join t)).
  destruct (group_by_spec (λ j, (j, quantity (b j)))
              (λ (a : Joined * Z) j, (a.1, a.2 + quantity (b j)))
              ((λ j, (group_key j, j)) <$> W)) as (Hnd & Hkeys & Hagg).
  assert (Hlisted : ∀ k, (λ j, (b_name j, b j)) <$>
                           filter (λ j, group_key j = k) W =
                         filter (λ row, trip_key row = k) (listed t conditions)).
  { intros k. rewrite <- join_listed. fold W. by rewrite list_filter_fmap'. }
  split; [done|]. split.
  - intros k. rewrite Hkeys, <- join_listed, <- !list_fmap_compose. done.
  - intros [k a] Hg. destruct (Hagg _ _ Hg) as (j0 & js & Hf & ->).
    rewrite filter_fmap_key, list_fmap_id in Hf.
    rewrite foldl_sum_step. unfold select. cbn [fst snd].
    cbn [TripRow.booking_date TripRow.package TripRow.quantity TripRow.resource
         TripRow.resource_name TripRow.capacity].
    assert (j0 ∈ filter (λ j, group_key j = k) W) as [Hk Hj0]%list_elem_of_filter
      by (rewrite Hf; apply elem_of_cons; by left).
    apply list_elem_of_filter in Hj0 as [_ Hj0].
    apply elem_of_join in Hj0 as (_ & Hpk & Hrs).
    unfold group_key in Hk. subst k. cbn [fst snd]. split; [done|]. split.
    + eauto 10.
    + rewrite <- Hlisted, Hf, <- list_fmap_compose, fmap_cons.
      unfold sum_list_Z. done.
Qed.

Lemma matches_status (d : fields) (row : string * Booking) :
  matches (<["status" := "Approved"]> d) row ↔
  status row.2 = "Approved" ∧ matches (delete "status" d) row.
Proof.
  unfold matches. rewrite <- insert_delete_eq.
  rewrite map_Forall_insert by apply lookup_delete_eq.
  unfold column_value at 1. simpl. split.
  - by intros [[= ->] ?].
  - by intros [-> ?].
Qed.

Lemma is_column_status (d : fields) :
  map_Forall (λ field _, is_column field = true) (<["status" := "Approved"]> d) ↔
  map_Forall (λ field _, is_column field = true) (delete "status" d).
Proof.
  rewrite <- insert_delete_eq.
  rewrite map_Forall_insert by apply lookup_delete_eq. tauto.
Qed.

(** * Filters on the text columns *)


Lemma text_column_is_column key :
  key ∈ text_columns → is_column key = true.
Proof.
  unfold text_columns. intros Hkey.
  repeat (apply elem_of_cons in Hkey as [->|Hkey]);
    [..|by apply elem_of_nil in Hkey]; done.
Qed.


(** * Filters of the listing, read on groups *)

Lemma grouped_first_row t conditions g :
  g ∈ grouped t conditions →
  g.2.1 ∈ join t ∧ where_clause conditions g.2.1 ∧ group_key g.2.1 = g.1.
Proof.
  unfold grouped. intros Hg. destruct g as [k a].
  destruct (group_by_spec (λ j, (j, quantity (b j)))
              (λ (a : Joined * Z) j, (a.1, a.2 + quantity (b j)))
              ((λ j, (group_key j, j)) <$>
               filter (where_clause conditions) (join t)))
    as (_ & _ & Hagg).
  destruct (Hagg _ _ Hg) as (j0 & js & Hf & ->).
  rewrite filter_fmap_key, list_fmap_id in Hf.
  rewrite foldl_sum_step. cbn [fst snd].
  assert (j0 ∈ filter (λ j, group_key j = k)
                 (filter (where_clause conditions) (join t)))
    as [Hk [HW Hj]%list_elem_of_filter]%list_elem_of_filter
    by (rewrite Hf; apply elem_of_cons; by left).
  done.
Qed.

Lemma holds_holds_key c j : holds c (b j) ↔ holds_key c (group_key j).
Proof. by destruct c. Qed.

Lemma conditions_of_passes (d : fields) (bk : Booking) :
  Forall (λ c, holds c bk) (conditions_of d) ↔ passes d bk.
Proof.
  unfold conditions_of, get_truthy, passes. rewrite Forall_app. split.
  - intros [Hp Hd]. split; intros v Hv Ht.
    + rewrite Hv, Ht in Hp. by apply Forall_inv in Hp.
    + rewrite Hv, Ht in Hd. by apply Forall_inv in Hd.
  - intros [Hp Hd]. split.
    + destruct (d !! "package") as [v|] eqn:Hv; [|constructor].
      destruct (truthy v) eqn:Ht; [|constructor].
      apply Forall_singleton. simpl. by apply Hp.
    + destruct (d !! "booking_date") as [v|] eqn:Hv; [|constructor].
      destruct (truthy v) eqn:Ht; [|constructor].
      apply Forall_singleton. simpl. by apply Hd.
Qed.

Lemma grouped_filter t conditions :
  grouped t conditions =
  filter (λ g, Forall (λ c, holds_key c g.1) conditions) (grouped t []).
Proof.
  unfold grouped.
  pose proof (group_by_filter
                (λ j : Joined, (j, quantity (b j)))
                (λ (a : Joined * Z) j, (a.1, a.2 + quantity (b j)))
                (λ k : string * string, Forall (λ c, holds_key c k) conditions)
                ((λ j, (group_key j, j)) <$>
                 filter (where_clause []) (join t))) as HG.
  etrans; [|exact HG]. f_equal.
  rewrite (list_filter_fmap' (λ kv : string * string * Joined,
             Forall (λ c, holds_key c kv.1) conditions)).
  f_equal. cbn [fst]. rewrite list_filter_filter.
  apply list_filter_iff. intros j. unfold where_clause. split.
  - intros [Hs Hc]. split; [|split; [done|constructor]].
    eapply Forall_impl; [exact Hc|]. intros c. apply holds_holds_key.
  - intros [Hc [Hs _]]. split; [done|].
    eapply Forall_impl; [exact Hc|]. intros c. apply holds_holds_key.
Qed.

Section ListingFacts.
Variable json_loads : string → filters_value.

Lemma get_list_Ok t args page :
  get_list json_loads t args = Ok page →
  let a := default no_args args in
  page = with_id <$>
    take (Z.to_nat (default 20 (limit_page_length a)))
      (drop (Z.to_nat (default 0 (limit_start a)))
         (merge_sort order_by
            (select <$> grouped t
               (conditions_of
                  (normalize json_loads (FiltersList []) (filters a)))))).
Proof.
  unfold get_list, sql, limit_offset. case_decide; [done|].
  cbn [mbind outcome_bind]. by intros [= <-].
Qed.

Lemma get_list_whole t f N page :
  get_list json_loads t
    (Some {| limit_start := Some 0; limit_page_length := Some N;
             filters := f |}) = Ok page →
  let groups :=
    grouped t (conditions_of (normalize json_loads (FiltersList []) f)) in
  (length groups < Z.to_nat N)%nat →
  ∀ row, row ∈ page ↔ ∃ g, g ∈ groups ∧ row = with_id (select g).
Proof.
  intros Hpage groups Hlen row. apply get_list_Ok in Hpage.
  cbn [from_option id limit_start limit_page_length filters] in Hpage.
  fold groups in Hpage. rewrite drop_0 in Hpage.
  rewrite take_ge in Hpage.
  2:{ rewrite (Permutation_length (merge_sort_Permutation _ _)), length_fmap.
      lia. }
  subst page. rewrite list_elem_of_fmap. split.
  - intros (r0 & -> & Hr0). rewrite merge_sort_Permutation in Hr0.
    apply list_elem_of_fmap in Hr0 as (g & -> & Hg). eauto.
  - intros (g & Hg & ->). exists (select g). split; [done|].
    rewrite merge_sort_Permutation. apply list_elem_of_fmap. eauto.
Qed.

Lemma get_list_page_length t f N page :
  get_list json_loads t
    (Some {| limit_start := Some 0; limit_page_length := Some N;
             filters := f |}) = Ok page →
  (length page < Z.to_nat N)%nat →
  length (grouped t (conditions_of (normalize json_loads (FiltersList []) f)))
  = length page.
Proof.
  intros Hpage Hlen. apply get_list_Ok in Hpage.
  cbn [from_option id limit_start limit_page_length filters] in Hpage.
  subst page. rewrite length_fmap, length_take, drop_0 in *.
  rewrite (Permutation_length (merge_sort_Permutation _ _)), length_fmap in *.
  lia.
Qed.

Lemma get_list_filtered t f N page0 page :
  get_list json_loads t
    (Some {| limit_start := Some 0; limit_page_length := Some N;
             filters := None |}) = Ok page0 →
  (length page0 < Z.to_nat N)%nat →
  get_list json_loads t
    (Some {| limit_start := Some 0; limit_page_length := Some N;
             filters := Some f |}) = Ok page →
  ∀ row, row ∈ page ↔
    row ∈ page0 ∧
    ∃ bk, tabBooking t !! TripRow.name row = Some bk ∧
          passes (normalize json_loads (FiltersList []) (Some f)) bk.
Proof.
  intros Hpage0 Hlen0 Hpage row.
  set (d := normalize json_loads (FiltersList []) (Some f)).
  pose proof (get_list_page_length _ _ _ _ Hpage0 Hlen0) as Hl0.
  change (conditions_of (normalize json_loads (FiltersList []) None))
    with (@nil condition) in Hl0.
  assert (Hlen : (length (grouped t (conditions_of d)) < Z.to_nat N)%nat).
  { rewrite grouped_filter.
    apply Nat.le_lt_trans with (length (grouped t [])); [apply length_filter|].
    rewrite Hl0. exact Hlen0. }
  rewrite (get_list_whole _ _ _ _ Hpage Hlen row).
  pose proof (get_list_whole _ _ _ _ Hpage0) as HW0. cbv zeta in HW0.
  change (conditions_of (normalize json_loads (FiltersList []) None))
    with (@nil condition) in HW0.
  rewrite (HW0 ltac:(rewrite Hl0; exact Hlen0) row). clear HW0.
  fold d. rewrite grouped_filter. split.
  - intros (g & [Hc Hg]%list_elem_of_filter & ->). split; [eauto|].
    apply grouped_first_row in Hg as (Hj & _ & Hk).
    apply elem_of_join in Hj as (Hbk & _ & _).
    exists (b g.2.1). split; [exact Hbk|].
    apply conditions_of_passes. eapply Forall_impl; [exact Hc|].
    intros c. rewrite <- Hk. apply holds_holds_key.
  - intros [(g & Hg & ->) (bk & Hbk & Hpass)]. exists g. split; [|done].
    apply list_elem_of_filter. split; [|done].
    apply grouped_first_row in Hg as (Hj & _ & Hk).
    apply elem_of_join in Hj as (Hbk' & _ & _).
    cbn [with_id select TripRow.name] in Hbk. rewrite Hbk' in Hbk.
    injection Hbk as <-. apply conditions_of_passes in Hpass.
    eapply Forall_impl; [exact Hpass|].
    intros c. rewrite <- Hk. apply holds_holds_key.
Qed.

(** C8.  A list-shaped filter input is normalised to the dict of its
    [(_, field, "=", value)] entries, a later entry for a field replacing
    an earlier one; an entry that is not a 4-element list with "=" in
    third place contributes nothing, wherever it stands.  [get_list]
    reads the normalised filters only at "package" and "booking_date":
    filters that agree there give the same listing, so any other key is
    ignored.  What is read there does filter: when the unfiltered
    listing fits on one page, the rows listed under filters are exactly
    the unfiltered rows whose bookings have the package and the booking
    date the normalised filters give (an empty value asks nothing). *)
Theorem list_filters_equality_only (t : Tables) (ls lp : option Z) :
  let args f := Some {| limit_start := ls; limit_page_length := lp;
                        filters := Some (Parsed f) |} in
  (∀ l, normalize json_loads (FiltersList []) (Some (Parsed (FiltersList l)))
        = list_to_map (reverse (omap constraint_of l))) ∧
  (∀ f, is_Some (constraint_of f) ↔ length f = 4%nat ∧ f !! 2%nat = Some "=") ∧
  (∀ f k v, constraint_of f = Some (k, v) ↔ ∃ a, f = [a; k; "="; v]) ∧
  (∀ l1 f l2, ¬ (length f = 4%nat ∧ f !! 2%nat = Some "=") →
     get_list json_loads t (args (FiltersList (l1 ++ f :: l2))) =
     get_list json_loads t (args (FiltersList (l1 ++ l2)))) ∧
  (∀ f1 f2,
     let d1 := normalize json_loads (FiltersList []) (Some (Parsed f1)) in
     let d2 := normalize json_loads (FiltersList []) (Some (Parsed f2)) in
     d1 !! "package" = d2 !! "package" →
     d1 !! "booking_date" = d2 !! "booking_date" →
     get_list json_loads t (args f1) = get_list json_loads t (args f2)) ∧
  (∀ d k v, k ≠ "package" → k ≠ "booking_date" →
     get_list json_loads t (args (FiltersDict (<[k := v]> d))) =
     get_list json_loads t (args (FiltersDict d))) ∧
  (∀ f N page0 page,
     get_list json_loads t
       (Some {| limit_start := Some 0; limit_page_length := Some N;
                filters := None |}) = Ok page0 →
     (length page0 < Z.to_nat N)%nat →
     get_list json_loads t
       (Some {| limit_start := Some 0; limit_page_length := Some N;
                filters := Some (Parsed f) |}) = Ok page →
     let d := normalize json_loads (FiltersList []) (Some (Parsed f)) in
     ∀ row, row ∈ page ↔
       row ∈ page0 ∧
       ∃ bk, tabBooking t !! TripRow.name row = Some bk ∧
             (∀ v, d !! "package" = Some v → truthy v = true →
                   package bk = v) ∧
             (∀ v, d !! "booking_date" = Some v → truthy v = true →
                   booking_date bk = v)).
Proof.
  intros args.
  assert (Hrec : ∀ f1 f2,
     let d1 := normalize json_loads (FiltersList []) (Some (Parsed f1)) in
     let d2 := normalize json_loads (FiltersList []) (Some (Parsed f2)) in
     d1 !! "package" = d2 !! "package" →
     d1 !! "booking_date" = d2 !! "booking_date" →
     get_list json_loads t (args f1) = get_list json_loads t (args f2)).
  { intros f1 f2 d1 d2 Hp Hd. subst d1 d2 args. unfold get_list.
    cbn [from_option filters limit_start limit_page_length id].
    by rewrite (conditions_of_recognized _ _ Hp Hd). }
  split; [|split; [|split; [|split; [|split; [|split]]]]].
  - intros l. apply simple_filters_to_dict_constraints.
  - apply constraint_of_honored.
  - apply constraint_of_Some.
  - intros l1 f l2 Hf. apply Hrec; cbn [normalize];
      by rewrite (simple_filters_to_dict_drop l1 f l2 Hf).
  - done.
  - intros d k v Hp Hd. apply Hrec; cbn [normalize];
      by rewrite lookup_insert_ne.
  - intros f N page0 page Hpage0 Hlen Hpage d row.
    apply (get_list_filtered t (Parsed f) N page0 page Hpage0 Hlen Hpage).
Qed.


Lemma get_count_text_columns t args :
  let user :=
    normalize json_loads (FiltersDict ∅) (filters (default no_args args)) in
  (∀ key, is_Some (user !! key) → key ∈ text_columns) →
  get_count json_loads t args =
    Ok (size (list_to_set (C := gset (string * string))
                (trip_key <$>
                 filter (λ row, status row.2 = "Approved" ∧
                                matches (delete "status" user) row)
                        (rows (tabBooking t))))).
Proof.
  intros user Hcols. unfold get_count, get_all_Booking. fold user.
  rewrite decide_True.
  2:{ apply is_column_status. intros key v [_ Hv]%lookup_delete_Some.
      apply text_column_is_column, Hcols. eauto. }
  cbn [mbind outcome_bind]. f_equal.
  rewrite length_group_by, <- list_fmap_compose.
  do 3 f_equal. apply list_filter_iff. intros row. apply matches_status.
Qed.


End ListingFacts.

(** * Worked instances *)

Lemma finalize_only_from_Created_witness :
  Response.status (finalize Stored "B5" Sample.db).1 = "success".
Proof.
  apply (proj1 (finalize_only_from_Created "B5" Sample.db)).
  exists (Sample.booking "P2" "2024-05-02" "Created" 1 "c@x.org").
  split; reflexivity.
Defined.

Lemma update_manifest_ceiling_witness :
  tabBooking (working Sample.db) !! "B2" =
    Some (Sample.booking "P1" "2024-06-01" "Approved" 2 "b@x.org") ∧
  Response.status
    (update_manifest Sample.meta_fields Stored "B2"
       (Some [{["full_name" := "Bob"]}; {["full_name" := "Cy"]}]) Sample.db).1
  = "success" ∧
  ∃ b', tabBooking
          (committed
             (update_manifest Sample.meta_fields Stored "B2"
                (Some [{["full_name" := "Bob"]}; {["full_name" := "Cy"]}])
                Sample.db).2) !! "B2" = Some b' ∧
        participants b' =
          tag_participant <$> [{["full_name" := "Bob"]}; {["full_name" := "Cy"]}].
Proof.
  split; [reflexivity|].
  destruct (proj2 (update_manifest_ceiling Sample.meta_fields "B2"
                     (Sample.booking "P1" "2024-06-01" "Approved" 2 "b@x.org")
                     [{["full_name" := "Bob"]}; {["full_name" := "Cy"]}]
                     Sample.db eq_refl))
    as (Hs & _ & _ & (b' & Hb' & Hps & _) & _).
  - simpl. lia.
  - split; [exact Hs|]. exists b'. split; [exact Hb'|exact Hps].
Defined.

Lemma update_manifest_omitted_witness :
  tabBooking (working Sample.db) !! "B2" =
    Some (Sample.booking "P1" "2024-06-01" "Approved" 2 "b@x.org") ∧
  committed (update_manifest Sample.meta_fields Stored "B2" None Sample.db).2 =
    committed Sample.db.
Proof.
  split; [reflexivity|].
  apply (update_manifest_omitted Sample.meta_fields Stored "B2"
           (Sample.booking "P1" "2024-06-01" "Approved" 2 "b@x.org")
           Sample.db eq_refl).
Defined.

Lemma create_quantity_witness :
  Response.status
    (create Sample.getdate Sample.validate_email_address Sample.autoname
       Stored "Dive" "d@x.org" "013" "P1" "2024-07-01"
       (Some [{| variation := "Adult"; line_quantity := 2 |};
              {| variation := "Child"; line_quantity := 1 |}])
       None None Sample.db).1 = "success".
Proof.
  eapply (proj1 (proj2 (create_quantity Sample.getdate
            Sample.validate_email_address Sample.autoname
            Stored "Dive" "d@x.org" "013" "P1" "2024-07-01"
            (Some [{| variation := "Adult"; line_quantity := 2 |};
                   {| variation := "Child"; line_quantity := 1 |}])
            None None Sample.db)));
    try reflexivity; done.
Defined.

Lemma failure_policy_witness :
  (finalize Stored "B4" Sample.db).1 =
    error_response
      "Failed to update booking status: Booking 'B4' already finalized".
Proof.
  apply (proj1 (proj2 (failure_policy Sample.getdate
           Sample.validate_email_address Sample.autoname Sample.meta_fields
           Stored Sample.db
           (ValueError "Booking 'B4' already finalized") Sample.db))
         "B4" eq_refl).
Defined.

Lemma load_from_db_not_found_witness :
  load_from_db Sample.tables "B4" =
    Raise (ValidationError "Scheduled Trip not found").
Proof.
  apply (proj2 (load_from_db_not_found Sample.tables "B4")
           (Sample.booking "P2" "2024-05-01" "Pending" 4 "b@x.org") eq_refl).
  discriminate.
Defined.

Lemma load_from_db_aggregates_witness :
  ∃ trip, load_from_db Sample.tables "B1" = Ok trip ∧
          ScheduledTrips.quantity trip = 5.
Proof.
  destruct (load_from_db_aggregates Sample.tables "B1"
              (Sample.booking "P1" "2024-06-01" "Approved" 3 "a@x.org")
              {| package_name := "Island tour"; resource := "R1" |}
              {| resource_name := "Boat"; capacity := 10 |}
              eq_refl eq_refl eq_refl eq_refl)
    as (trip & Hload & _ & Hq & _).
  exists trip. split; [exact Hload|]. rewrite Hq. reflexivity.
Defined.



Lemma list_filters_equality_only_witness :
  get_list Sample.json_loads Sample.tables
    (Some {| limit_start := None; limit_page_length := None;
             filters := Some (Parsed (FiltersList
               [["Booking"; "package"; "="; "P1"];
                ["Booking"; "booking_date"; ">"; "2024-01-01"]])) |}) =
  get_list Sample.json_loads Sample.tables
    (Some {| limit_start := None; limit_page_length := None;
             filters := Some (Parsed (FiltersList
               [["Booking"; "package"; "="; "P1"]])) |}).
Proof.
  apply (proj1 (proj2 (proj2 (proj2 (list_filters_equality_only
           Sample.json_loads Sample.tables None None))))
         [["Booking"; "package"; "="; "P1"]]
         ["Booking"; "booking_date"; ">"; "2024-01-01"] []).
  intros [_ [=]].
Defined.

(** * Inputs on which a stated property fails *)

(** [create] with no line items and a package that does not exist: the
    package lookup raises first, so the error is [DoesNotExistError], not a
    [ValueError]. *)
Lemma create_no_items_missing_package :
  create_body Sample.getdate Sample.validate_email_address Sample.autoname
    Stored "Dive" "d@x.org" "013" "P9" "2024-07-01" (Some []) None None
    Sample.db =
    (Raise (DoesNotExistError "Package P9 not found"), Sample.db) ∧
  (create Sample.getdate Sample.validate_email_address Sample.autoname
     Stored "Dive" "d@x.org" "013" "P9" "2024-07-01" (Some []) None None
     Sample.db).1 =
    error_response "Failed to create booking: Package P9 not found" ∧
  ¬ ∃ msg,
      create_body Sample.getdate Sample.validate_email_address Sample.autoname
        Stored "Dive" "d@x.org" "013" "P9" "2024-07-01" (Some []) None None
        Sample.db = (Raise (ValueError msg), Sample.db).
Proof.
  split; [reflexivity|]. split; [reflexivity|].
  intros [msg Hmsg]. vm_compute in Hmsg. discriminate.
Qed.

(** [finalize] of a booking that does not exist: the message is the bare
    "Booking '...' not found". *)
Lemma finalize_missing_message_unprefixed :
  finalize_body Stored "B9" Sample.db =
    (Raise (DoesNotExistError "Booking B9 not found"), Sample.db) ∧
  (finalize Stored "B9" Sample.db).1 = error_response "Booking 'B9' not found" ∧
  String.prefix "Failed to update booking status: "
    (Response.message (finalize Stored "B9" Sample.db).1) = false.
Proof. repeat split; reflexivity. Qed.


(** * Further properties of the booking API *)

Section CreateChecks.
Variable getdate : string → exn + string.
Variable validate_email_address : string → string.
Variable autoname : Tables → Booking → string.

(** X1.  [create] reports the first check that fails, in the order of the
    source: required fields, package lookup, date, line items, email, and
    last the store; each time the answer is the error response with the
    message of that check, after a rollback. *)
Theorem create_first_failing_check (w : write_outcome)
    (bn em cn pk bd : string) (vq : option (list VariationQuantity))
    (parts sr : option (list fields)) (db : DB) :
  let res := create getdate validate_email_address autoname
               w bn em cn pk bd vq parts sr db in
  let failed msg :=
    res = (error_response ("Failed to create booking: " +:+ msg),
           db_rollback db) in
  (forallb truthy [bn; em; cn; pk; bd] = false →
     failed "All required fields must be provided") ∧
  (forallb truthy [bn; em; cn; pk; bd] = true →
     (tabPackage (working db) !! pk = None →
        failed ("Package " +:+ pk +:+ " not found")) ∧
     (is_Some (tabPackage (working db) !! pk) →
        (∀ m, getdate bd = inl (ValueError m) →
           failed "Invalid booking date format. Use YYYY-MM-DD") ∧
        (∀ e, getdate bd = inl e → is_ValueError e = false →
           failed (str e)) ∧
        (∀ d, getdate bd = inr d →
           (vq = None ∨ vq = Some [] →
              failed "Invalid variations provided") ∧
           (∀ items, vq = Some items → items ≠ [] →
              (truthy (validate_email_address em) = false →
                 failed "Invalid email address") ∧
              (truthy (validate_email_address em) = true →
                 ∀ partial e, w = Failed partial e →
                   res = (error_response
                            ("Failed to create booking: " +:+ str e),
                          {| committed := committed db;
                             working := committed db |})))))).
Proof.
  intros res failed. subst res failed. cbv beta.
  unfold create, create_body, get_doc_Package, parse_booking_date, insert.
  run_body. split.
  { intros ->. done. }
  intros ->. cbn [negb]. split.
  { intros ->. done. }
  intros [pkg ->]. split; [|split].
  - intros m ->. done.
  - intros e -> He. by destruct e.
  - intros d ->. split.
    + by intros [-> | ->].
    + intros items -> Hne. destruct items as [|i items]; [done|]. split.
      * intros ->. done.
      * intros -> partial e ->. done.
Qed.

(** X2.  When every check passes and the store accepts the insert,
    [create] commits one new Booking under the assigned name: it carries
    the fields as sent (the date as parsed), status "Created", the supplied
    participants and special requests or empty lists when they are omitted,
    and the line items; it is also the document of the response.  No other
    booking, package or resource changes. *)
Theorem create_stores_what_was_sent (bn em cn pk bd : string)
    (items : list VariationQuantity) (parts sr : option (list fields))
    (db : DB) (pkg : Package) (d : string) :
  forallb truthy [bn; em; cn; pk; bd] = true →
  tabPackage (working db) !! pk = Some pkg →
  getdate bd = inr d →
  items ≠ [] →
  truthy (validate_email_address em) = true →
  let res := create getdate validate_email_address autoname
               Stored bn em cn pk bd (Some items) parts sr db in
  let name := autoname (working db) (new_booking bn em cn pk d items parts sr) in
  ∃ b,
    res.1 = success_response (BookingData name b) "Booking created successfully" ∧
    tabBooking (committed res.2) !! name = Some b ∧
    working res.2 = committed res.2 ∧
    booking_name b = bn ∧ email b = em ∧ contact_number b = cn ∧
    package b = pk ∧ booking_date b = d ∧ status b = "Created" ∧
    participants b = default [] parts ∧
    special_requests b = default [] sr ∧
    variation_quantity b = items ∧
    (∀ n, n ≠ name →
       tabBooking (committed res.2) !! n = tabBooking (working db) !! n) ∧
    tabPackage (committed res.2) = tabPackage (working db) ∧
    tabResource (committed res.2) = tabResource (working db).
Proof.
  intros Hreq Hpk Hd Hne Hem res name. subst res name.
  unfold create. run_body.
  rewrite (create_body_valid _ _ _ _ _ _ _ _ _ _ _ _ _ _ Hreq Hpk Hd Hne Hem).
  cbn [fst snd committed working]. eexists. split; [reflexivity|].
  cbn [put_booking tabBooking tabPackage tabResource].
  split; [apply lookup_insert_eq|]. repeat split; try done.
  intros n Hn. by apply lookup_insert_ne.
Qed.

(** X4.  A booking that [create] has just stored can be finalized: with
    the store accepting both writes, [finalize] of the assigned name
    answers success and the committed booking is the created one with
    status "Pending". *)
Theorem create_then_finalize (bn em cn pk bd : string)
    (items : list VariationQuantity) (parts sr : option (list fields))
    (db : DB) (pkg : Package) (d : string) :
  forallb truthy [bn; em; cn; pk; bd] = true →
  tabPackage (working db) !! pk = Some pkg →
  getdate bd = inr d →
  items ≠ [] →
  truthy (validate_email_address em) = true →
  let created := create getdate validate_email_address autoname
                   Stored bn em cn pk bd (Some items) parts sr db in
  let name := autoname (working db) (new_booking bn em cn pk d items parts sr) in
  let res := finalize Stored name created.2 in
  ∃ b,
    Response.data created.1 = BookingData name b ∧
    res.1 = success_response (StatusData name bn "Pending")
              "Booking status updated successfully" ∧
    tabBooking (committed res.2) !! name = Some (set_status "Pending" b) ∧
    working res.2 = committed res.2.
Proof.
  intros Hreq Hpk Hd Hne Hem created name res. subst created name res.
  unfold create. run_body.
  rewrite (create_body_valid _ _ _ _ _ _ _ _ _ _ _ _ _ _ Hreq Hpk Hd Hne Hem).
  cbn [fst snd]. eexists. split; [reflexivity|].
  erewrite finalize_Created; [|apply lookup_insert_eq|reflexivity].
  cbn [fst snd committed working put_booking tabBooking].
  split; [done|]. split; [apply lookup_insert_eq|done].
Qed.

End CreateChecks.

Section ManifestMore.
Variable meta_fields : list (string * string).

Lemma update_manifest_fits name b ps db :
  tabBooking (working db) !! name = Some b →
  Z.of_nat (length ps) ≤ quantity b →
  update_manifest meta_fields Stored name (Some ps) db =
    (success_response
       (ManifestData name (booking_name b) (status b)
          (project meta_fields <$> (tag_participant <$> ps)))
       "Booking status updated successfully",
     {| committed :=
          put_booking name (set_participants (tag_participant <$> ps) b)
            (working db);
        working :=
          put_booking name (set_participants (tag_participant <$> ps) b)
            (working db) |}).
Proof.
  intros Hb Hq. unfold update_manifest. run_body.
  by rewrite (update_manifest_body_fits _ _ _ _ _ _ Hb Hq).
Qed.

Lemma put_booking_twice name b1 b2 t :
  put_booking name b2 (put_booking name b1 t) = put_booking name b2 t.
Proof. unfold put_booking. simpl. by rewrite insert_insert_eq. Qed.

(** X5.  [finalize] and [update_manifest] do not interfere: for a
    "Created" booking and a roster within its quantity, doing the two in
    either order (the store accepting the writes) succeeds both times and
    leaves the same store. *)
Theorem finalize_update_manifest_commute (name : string) (b : Booking)
    (ps : list fields) (db : DB) :
  tabBooking (working db) !! name = Some b →
  status b = "Created" →
  Z.of_nat (length ps) ≤ quantity b →
  let f := finalize Stored name in
  let u := update_manifest meta_fields Stored name (Some ps) in
  Response.status (f db).1 = "success" ∧
  Response.status (u (f db).2).1 = "success" ∧
  Response.status (u db).1 = "success" ∧
  Response.status (f (u db).2).1 = "success" ∧
  (u (f db).2).2 = (f (u db).2).2.
Proof.
  intros Hb Hs Hq f u. subst f u.
  rewrite (finalize_Created _ _ _ Hb Hs).
  rewrite (update_manifest_fits _ _ _ _ Hb Hq). cbn [fst snd].
  rewrite (update_manifest_fits name (set_status "Pending" b) ps);
    [|apply lookup_insert_eq|done].
  rewrite (finalize_Created name (set_participants (tag_participant <$> ps) b));
    [|apply lookup_insert_eq|done].
  cbn [fst snd working]. rewrite !put_booking_twice. done.
Qed.

(** X6.  The last manifest wins: after two successive replacements, both
    within the quantity, the store and the response are those of the
    second replacement alone; in particular repeating a replacement changes
    nothing. *)
Theorem update_manifest_last_wins (name : string) (b : Booking)
    (ps1 ps2 : list fields) (db : DB) :
  tabBooking (working db) !! name = Some b →
  Z.of_nat (length ps1) ≤ quantity b →
  Z.of_nat (length ps2) ≤ quantity b →
  let u ps := update_manifest meta_fields Stored name (Some ps) in
  u ps2 (u ps1 db).2 = u ps2 db.
Proof.
  intros Hb Hq1 Hq2 u. subst u. cbv beta.
  rewrite (update_manifest_fits _ _ _ _ Hb Hq1).
  rewrite (update_manifest_fits _ _ _ _ Hb Hq2). cbn [fst snd].
  rewrite (update_manifest_fits name
             (set_participants (tag_participant <$> ps1) b) ps2);
    [|apply lookup_insert_eq|done].
  cbn [working]. by rewrite !put_booking_twice.
Qed.

Lemma elem_of_declared_fields (f : string) :
  f ∈ declared_fields meta_fields ↔
  ∃ ty, (f, ty) ∈ meta_fields ∧ truthy f = true ∧
        ty ≠ "Section Break" ∧ ty ≠ "Column Break".
Proof.
  unfold declared_fields. rewrite list_elem_of_fmap. split.
  - intros ([f' ty] & -> & [[Hf Hty] Hin]%list_elem_of_filter). simpl in *.
    exists ty. repeat split; try done.
    + intros ->. apply Hty. apply elem_of_cons. by left.
    + intros ->. apply Hty. apply elem_of_cons. right.
      apply elem_of_cons. by left.
  - intros (ty & Hin & Hf & H1 & H2). exists (f, ty). split; [done|].
    apply list_elem_of_filter. split; [|done]. split; [done|]. simpl.
    intros [->|[->|[]%elem_of_nil]%elem_of_cons]%elem_of_cons; done.
Qed.

(** X7.  The response of a successful [update_manifest] has one row per
    supplied participant, in order; each row lists exactly the declared
    fields of the participant doctype (those with a field name and a type
    other than "Section Break" and "Column Break"), each with the value
    supplied for it or the absent marker; for "doctype" the value is the
    participant's own "doctype" if it supplied one, else the tag. *)
Theorem update_manifest_response_rows (name : string) (b : Booking)
    (ps : list fields) (db : DB) :
  tabBooking (working db) !! name = Some b →
  Z.of_nat (length ps) ≤ quantity b →
  ∃ out,
    (update_manifest meta_fields Stored name (Some ps) db).1 =
      success_response (ManifestData name (booking_name b) (status b) out)
        "Booking status updated successfully" ∧
    length out = length ps ∧
    (∀ i row, out !! i = Some row → row.*1 = declared_fields meta_fields) ∧
    (∀ i row p f v, out !! i = Some row → ps !! i = Some p → (f, v) ∈ row →
       v = if decide (f = "doctype")
           then Some (default "Booking Participant" (p !! "doctype"))
           else p !! f) ∧
    (∀ f, f ∈ declared_fields meta_fields ↔
          ∃ ty, (f, ty) ∈ meta_fields ∧ truthy f = true ∧
                ty ≠ "Section Break" ∧ ty ≠ "Column Break").
Proof.
  intros Hb Hq. rewrite (update_manifest_fits _ _ _ _ Hb Hq). cbn [fst].
  eexists. split; [reflexivity|]. split; [by rewrite !length_fmap|].
  split; [|split].
  - intros i row. rewrite !list_lookup_fmap.
    destruct (ps !! i) as [p|]; [|done]. simpl. intros [= <-].
    unfold project. rewrite <- list_fmap_compose. apply list_fmap_id.
  - intros i row p f v. rewrite !list_lookup_fmap. intros Hrow Hp.
    rewrite Hp in Hrow. simpl in Hrow. injection Hrow as <-.
    unfold project. intros (f' & [= -> ->] & _)%list_elem_of_fmap.
    apply tag_participant_lookup.
  - apply elem_of_declared_fields.
Qed.

End ManifestMore.

(** * Further properties of the Scheduled Trips controller *)

Lemma holds_same_key c b1 b2 :
  package b1 = package b2 → booking_date b1 = booking_date b2 →
  holds c b1 → holds c b2.
Proof. intros Hp Hd. destruct c; simpl; congruence. Qed.

Lemma listed_group_constituents t conditions j :
  j ∈ join t → where_clause conditions j →
  filter (λ row, trip_key row = group_key j) (listed t conditions) =
  constituents t (package (b j)) (booking_date (b j)).
Proof.
  intros Hj [Hs Hc]. apply elem_of_join in Hj as (_ & Hpk & Hrs).
  unfold listed, constituents. rewrite list_filter_filter.
  apply list_filter_iff. intros row. unfold trip_key, group_key. split.
  - intros ([= Hp Hd] & Ha & _). done.
  - intros (Ha & Hp & Hd). split; [by rewrite Hp, Hd|]. split; [done|]. split.
    + eapply Forall_impl; [exact Hc|]. intros c. by apply holds_same_key.
    + unfold join_row. rewrite Hp, Hpk. simpl. rewrite Hrs. simpl. eauto.
Qed.

Section ListingMore.
Variable json_loads : string → filters_value.

Lemma elem_of_get_list t args page row :
  get_list json_loads t args = Ok page → row ∈ page →
  ∃ g, g ∈ grouped t
             (conditions_of
                (normalize json_loads (FiltersList [])
                   (filters (default no_args args)))) ∧
       row = with_id (select g).
Proof.
  intros Hpage Hrow. apply get_list_Ok in Hpage. cbv zeta in Hpage.
  subst page. apply list_elem_of_fmap in Hrow as (r0 & -> & Hr0).
  apply subseteq_take, subseteq_drop in Hr0.
  rewrite merge_sort_Permutation in Hr0.
  apply list_elem_of_fmap in Hr0 as (g & -> & Hg). eauto.
Qed.

(** X8.  Every row [get_list] returns stands for a group of Approved
    bookings: its [name] is the name of one of them, its date is theirs,
    its package column is the display name of their package (not the
    package key), and its [id] is that display name, a hyphen and the
    date. *)
Theorem get_list_row_identity (t : Tables) (args : option Args)
    (page : list TripRow.t) (row : TripRow.t) :
  get_list json_loads t args = Ok page →
  row ∈ page →
  TripRow.id row =
    Some (TripRow.package row +:+ "-" +:+ TripRow.booking_date row) ∧
  ∃ bk pkg res,
    tabBooking t !! TripRow.name row = Some bk ∧
    status bk = "Approved" ∧
    booking_date bk = TripRow.booking_date row ∧
    tabPackage t !! package bk = Some pkg ∧
    TripRow.package row = package_name pkg ∧
    TripRow.resource row = resource pkg ∧
    tabResource t !! resource pkg = Some res ∧
    TripRow.resource_name row = resource_name res ∧
    TripRow.capacity row = capacity res.
Proof.
  intros Hpage Hrow.
  destruct (elem_of_get_list _ _ _ _ Hpage Hrow) as (g & Hg & ->).
  split; [done|].
  apply grouped_first_row in Hg as (Hj & [Hs _] & _).
  apply elem_of_join in Hj as (Hbk & Hpk & Hrs).
  exists (b g.2.1), (p g.2.1), (r g.2.1). done.
Qed.

(** X9.  A row of [get_list] can be opened: [load_from_db] of the row's
    [name] succeeds, and the trip it loads has the row's date, quantity and
    capacity, whatever filters and page the row came from. *)
Theorem get_list_row_loads (t : Tables) (args : option Args)
    (page : list TripRow.t) (row : TripRow.t) :
  get_list json_loads t args = Ok page →
  row ∈ page →
  ∃ trip,
    load_from_db t (TripRow.name row) = Ok trip ∧
    ScheduledTrips.booking_date trip = TripRow.booking_date row ∧
    ScheduledTrips.quantity trip = TripRow.quantity row ∧
    ScheduledTrips.capacity trip = TripRow.capacity row.
Proof.
  intros Hpage Hrow.
  destruct (elem_of_get_list _ _ _ _ Hpage Hrow) as (g & Hg & ->).
  set (conds := conditions_of _) in Hg.
  destruct (grouped_spec t conds) as (_ & _ & Hrows).
  destruct (Hrows g Hg) as (_ & _ & Hq).
  apply grouped_first_row in Hg as (Hj & HW & Hk).
  destruct (elem_of_join _ _ Hj) as (Hbk & Hpk & Hrs).
  cbn [with_id TripRow.name TripRow.booking_date TripRow.quantity
       TripRow.capacity]. rewrite Hq.
  cbn [select TripRow.name TripRow.booking_date TripRow.capacity].
  rewrite (load_from_db_approved _ _ _ Hbk (proj1 HW)). unfold get_doc.
  rewrite Hpk. cbn [mbind outcome_bind]. rewrite Hrs.
  cbn [mbind outcome_bind]. eexists. split; [reflexivity|].
  cbn [ScheduledTrips.booking_date ScheduledTrips.quantity
       ScheduledTrips.capacity].
  split; [done|]. split; [|done].
  by rewrite <- Hk, (listed_group_constituents _ _ _ Hj HW).
Qed.

(** X10.  Pages tile the listing: for non-negative bounds, the page of
    [n1] rows from offset [m] followed by the page of [n2] rows from
    offset [m + n1] is the page of [n1 + n2] rows from offset [m]; and a
    page never holds more rows than its length bound. *)
Theorem get_list_pages_tile (t : Tables) (f : option filters_arg)
    (m n1 n2 : Z) :
  0 ≤ m → 0 ≤ n1 → 0 ≤ n2 →
  let page start len :=
    get_list json_loads t
      (Some {| limit_start := Some start; limit_page_length := Some len;
               filters := f |}) in
  ∃ p1 p2,
    page m n1 = Ok p1 ∧
    page (m + n1) n2 = Ok p2 ∧
    page m (n1 + n2) = Ok (p1 ++ p2) ∧
    (length p1 ≤ Z.to_nat n1)%nat.
Proof.
  intros Hm Hn1 Hn2 page. subst page. cbv beta.
  unfold get_list, sql, limit_offset.
  cbn [from_option id limit_start limit_page_length filters].
  rewrite !decide_False by lia. cbn [mbind outcome_bind].
  eexists _, _. split; [reflexivity|]. split; [reflexivity|]. split.
  - f_equal. rewrite <- fmap_app. f_equal.
    rewrite !Z2Nat.inj_add by lia.
    by rewrite <- drop_drop, take_take_drop.
  - rewrite length_fmap, length_take. lia.
Qed.

(** X11.  An empty filter value is no filter for [get_list]: a "package"
    or "booking_date" entry whose value is the empty string gives the same
    listing as leaving the entry out. *)
Theorem get_list_empty_value_ignored (t : Tables) (ls lp : option Z)
    (d : fields) (k : string) :
  k = "package" ∨ k = "booking_date" →
  let args d := Some {| limit_start := ls; limit_page_length := lp;
                        filters := Some (Parsed (FiltersDict d)) |} in
  get_list json_loads t (args (<[k := EmptyString]> d)) =
  get_list json_loads t (args (delete k d)).
Proof.
  intros Hk args. subst args. cbv beta. unfold get_list.
  cbn [from_option id filters normalize limit_start limit_page_length].
  assert (conditions_of (<[k := EmptyString]> d) = conditions_of (delete k d))
    as ->; [|done].
  unfold conditions_of, get_truthy.
  destruct Hk as [-> | ->].
  - rewrite lookup_insert_eq, lookup_delete_eq.
    by rewrite lookup_insert_ne, lookup_delete_ne.
  - rewrite lookup_insert_eq, lookup_delete_eq.
    by rewrite lookup_insert_ne, lookup_delete_ne.
Qed.

(** X12.  The filters of [get_list] are exact matches on the bookings: with
    a non-empty "booking_date" value every returned row has that date, and
    with a non-empty "package" value every returned row stands for
    bookings whose package key is that value. *)
Theorem get_list_filters_exact (t : Tables) (args : option Args)
    (page : list TripRow.t) (row : TripRow.t) :
  get_list json_loads t args = Ok page →
  row ∈ page →
  let d := normalize json_loads (FiltersList [])
             (filters (default no_args args)) in
  (∀ v, d !! "booking_date" = Some v → truthy v = true →
        TripRow.booking_date row = v) ∧
  (∀ v, d !! "package" = Some v → truthy v = true →
        ∃ bk, tabBooking t !! TripRow.name row = Some bk ∧ package bk = v).
Proof.
  intros Hpage Hrow d.
  destruct (elem_of_get_list _ _ _ _ Hpage Hrow) as (g & Hg & ->).
  fold d in Hg. apply grouped_first_row in Hg as (Hj & [_ Hc] & _).
  apply elem_of_join in Hj as (Hbk & _ & _).
  unfold conditions_of, get_truthy in Hc. apply Forall_app in Hc as [Hp Hd].
  split.
  - intros v Hv Ht. rewrite Hv, Ht in Hd. apply Forall_inv in Hd.
    exact Hd.
  - intros v Hv Ht. rewrite Hv, Ht in Hp. apply Forall_inv in Hp.
    exists (b g.2.1). split; [exact Hbk|exact Hp].
Qed.

End ListingMore.

(** * Counting against listing *)

Lemma filter_ext_in {A} (P Q : A → Prop) `{∀ x, Decision (P x)}
    `{∀ x, Decision (Q x)} (l : list A) :
  (∀ x, x ∈ l → P x ↔ Q x) → filter P l = filter Q l.
Proof.
  induction l as [|x l IH]; intros Hl; [done|].
  rewrite !filter_cons, IH.
  - destruct (decide (P x)) as [HP|HP], (decide (Q x)) as [HQ|HQ]; try done.
    + destruct HQ. apply Hl; [apply elem_of_cons; by left|done].
    + destruct HP. apply Hl; [apply elem_of_cons; by left|done].
  - intros y Hy. apply Hl. apply elem_of_cons. by right.
Qed.

Lemma length_grouped t conditions :
  length (grouped t conditions) =
  size (list_to_set (C := gset (string * string))
          (trip_key <$> listed t conditions)).
Proof.
  destruct (grouped_spec t conditions) as (Hnd & Hkeys & _).
  trans (length (grouped t conditions).*1); [by rewrite length_fmap|].
  trans (size (list_to_set (C := gset (string * string))
                 (grouped t conditions).*1));
    [symmetry; by apply size_list_to_set|].
  f_equal. apply set_eq. intros k. by rewrite !elem_of_list_to_set.
Qed.

Lemma matches_conditions_of (d : fields) (row : string * Booking) :
  (∀ k v, d !! k = Some v →
     k = "status" ∨ ((k = "package" ∨ k = "booking_date") ∧ truthy v = true)) →
  matches (delete "status" d) row ↔
  Forall (λ c, holds c row.2) (conditions_of d).
Proof.
  intros Hd. unfold matches, conditions_of, get_truthy. split.
  - intros Hm. apply Forall_app. split.
    + destruct (d !! "package") as [v|] eqn:Hv; [|constructor].
      destruct (truthy v); [|constructor]. apply Forall_singleton. simpl.
      assert (column_value "package" row = Some v) as [= ?]; [|done].
      apply Hm. by rewrite lookup_delete_ne.
    + destruct (d !! "booking_date") as [v|] eqn:Hv; [|constructor].
      destruct (truthy v); [|constructor]. apply Forall_singleton. simpl.
      assert (column_value "booking_date" row = Some v) as [= ?]; [|done].
      apply Hm. by rewrite lookup_delete_ne.
  - intros [Hp Hb]%Forall_app k v [Hk Hv]%lookup_delete_Some.
    destruct (Hd _ _ Hv) as [?|[[-> | ->] Ht]]; [done|..].
    + rewrite Hv, Ht in Hp. apply Forall_inv in Hp. simpl in Hp.
      unfold column_value. simpl. by rewrite Hp.
    + rewrite Hv, Ht in Hb. apply Forall_inv in Hb. simpl in Hb.
      unfold column_value. simpl. by rewrite Hb.
Qed.

Section CountMore.
Variable json_loads : string → filters_value.

Lemma normalize_default (a : option filters_arg) :
  normalize json_loads (FiltersList []) a =
  normalize json_loads (FiltersDict ∅) a.
Proof. by destruct a. Qed.

(** X13.  [get_count] agrees with [get_list] when the filters use only the
    keys [get_list] reads, with non-empty values (a "status" entry is
    harmless), and every Approved booking has a package and that package a
    resource: the count is then the number of rows of the whole listing. *)
Theorem get_count_matches_get_list (t : Tables) (args : option Args) :
  let f := filters (default no_args args) in
  let d := normalize json_loads (FiltersDict ∅) f in
  (∀ k v, d !! k = Some v →
     k = "status" ∨ ((k = "package" ∨ k = "booking_date") ∧ truthy v = true)) →
  (∀ n bk, tabBooking t !! n = Some bk → status bk = "Approved" →
     ∃ pkg res, tabPackage t !! package bk = Some pkg ∧
                tabResource t !! resource pkg = Some res) →
  ∃ n,
    get_count json_loads t args = Ok n ∧
    ∀ N, Z.of_nat n ≤ N →
      ∃ page,
        get_list json_loads t
          (Some {| limit_start := Some 0; limit_page_length := Some N;
                   filters := f |}) = Ok page ∧
        length page = n.
Proof.
  intros f d Hd Hint.
  exists (length (grouped t (conditions_of d))). split.
  - unfold get_count, get_all_Booking. fold f d.
    rewrite decide_True.
    2:{ apply is_column_status. intros k v [Hk Hv]%lookup_delete_Some.
        destruct (Hd _ _ Hv) as [?|[[-> | ->] _]]; done. }
    cbn [mbind outcome_bind]. f_equal.
    rewrite length_group_by, length_grouped, <- list_fmap_compose.
    do 3 f_equal. unfold listed. apply filter_ext_in.
    intros row Hrow. rewrite matches_status, (matches_conditions_of d row Hd).
    split; [|by intros (? & ? & _)].
    intros [Hs Hc]. split; [done|]. split; [done|].
    apply elem_of_rows in Hrow.
    destruct (Hint _ _ Hrow Hs) as (pkg & res & Hpkg & Hres).
    unfold join_row. rewrite Hpkg. simpl. rewrite Hres. simpl. eauto.
  - intros N HN. unfold get_list, sql, limit_offset.
    cbn [from_option id limit_start limit_page_length filters].
    rewrite decide_False by lia. cbn [mbind outcome_bind].
    eexists. split; [reflexivity|].
    fold f. rewrite normalize_default. fold d.
    rewrite length_fmap, length_take, drop_0.
    rewrite (Permutation_length (merge_sort_Permutation _ _)), length_fmap.
    lia.
Qed.

End CountMore.

(** * Loading a trip *)

(** X14.  [load_from_db] succeeds exactly when the name is that of an
    Approved booking whose package exists and whose package's resource
    exists; for an Approved booking with a missing package it raises
    "Package ... not found", and with a missing resource "Resource ... not
    found". *)
Theorem load_from_db_outcome (t : Tables) (name : string) :
  ((∃ trip, load_from_db t name = Ok trip) ↔
   ∃ bk pkg res, tabBooking t !! name = Some bk ∧ status bk = "Approved" ∧
                 tabPackage t !! package bk = Some pkg ∧
                 tabResource t !! resource pkg = Some res) ∧
  (∀ bk, tabBooking t !! name = Some bk → status bk = "Approved" →
     (tabPackage t !! package bk = None →
        load_from_db t name =
          Raise (DoesNotExistError
                   ("Package " +:+ package bk +:+ " not found"))) ∧
     (∀ pkg, tabPackage t !! package bk = Some pkg →
        tabResource t !! resource pkg = None →
        load_from_db t name =
          Raise (DoesNotExistError
                   ("Resource " +:+ resource pkg +:+ " not found")))).
Proof.
  split.
  - split.
    + intros [trip Hload].
      destruct (tabBooking t !! name) as [bk|] eqn:Hbk.
      2:{ rewrite load_from_db_missing in Hload; [done|]. congruence. }
      destruct (decide (status bk = "Approved")) as [Hs|Hs].
      2:{ rewrite load_from_db_missing in Hload; [done|]. congruence. }
      rewrite (load_from_db_approved _ _ _ Hbk Hs) in Hload.
      unfold get_doc in Hload.
      destruct (tabPackage t !! package bk) as [pkg|] eqn:Hpkg;
        cbn [mbind outcome_bind] in Hload; [|done].
      destruct (tabResource t !! resource pkg) as [res|] eqn:Hres;
        cbn [mbind outcome_bind] in Hload; [|done].
      eauto 10.
    + intros (bk & pkg & res & Hbk & Hs & Hpkg & Hres).
      rewrite (load_from_db_approved _ _ _ Hbk Hs). unfold get_doc.
      rewrite Hpkg. cbn [mbind outcome_bind]. rewrite Hres.
      cbn [mbind outcome_bind]. eauto.
  - intros bk Hbk Hs. rewrite (load_from_db_approved _ _ _ Hbk Hs).
    unfold get_doc. split.
    + intros ->. done.
    + intros pkg -> Hres. cbn [mbind outcome_bind]. by rewrite Hres.
Qed.

(** X15.  Any Approved booking of a group can stand for the trip: loading
    by the names of two Approved bookings with the same package and
    booking date gives the same result, up to the name the trip carries. *)
Theorem load_from_db_any_representative (t : Tables) (n1 n2 : string)
    (b1 b2 : Booking) :
  tabBooking t !! n1 = Some b1 → status b1 = "Approved" →
  tabBooking t !! n2 = Some b2 → status b2 = "Approved" →
  package b1 = package b2 →
  booking_date b1 = booking_date b2 →
  (∀ e, load_from_db t n1 = Raise e → load_from_db t n2 = Raise e) ∧
  (∀ trip, load_from_db t n1 = Ok trip →
     load_from_db t n2 =
       Ok {| ScheduledTrips.name := n2;
             ScheduledTrips.booking_date := ScheduledTrips.booking_date trip;
             ScheduledTrips.package := ScheduledTrips.package trip;
             ScheduledTrips.capacity := ScheduledTrips.capacity trip;
             ScheduledTrips.quantity := ScheduledTrips.quantity trip;
             ScheduledTrips.bookings := ScheduledTrips.bookings trip;
             ScheduledTrips.participants := ScheduledTrips.participants trip;
             ScheduledTrips.variation_quantity :=
               ScheduledTrips.variation_quantity trip |}).
Proof.
  intros H1 Hs1 H2 Hs2 Hp Hd.
  rewrite (load_from_db_approved _ _ _ H1 Hs1).
  rewrite (load_from_db_approved _ _ _ H2 Hs2).
  rewrite <- Hp, <- Hd.
  destruct (get_doc "Package" (tabPackage t) (package b1)) as [pkg|e];
    cbn [mbind outcome_bind]; [|done].
  destruct (get_doc "Resource" (tabResource t) (resource pkg)) as [res|e];
    cbn [mbind outcome_bind]; [|done].
  split; [done|]. by intros trip [= <-].
Qed.

(** * The aggregator and the booking lifecycle *)

Section LifecycleAndCount.
Variable json_loads : string → filters_value.
Variable meta_fields : list (string * string).

Lemma get_count_put_booking (t : Tables) (name : string) (b1 b2 : Booking)
    (args : option Args) :
  tabBooking t !! name = Some b1 →
  trip_key (name, b2) = trip_key (name, b1) →
  (∀ d, status b1 = "Approved" ∧ matches d (name, b1) ↔
        status b2 = "Approved" ∧ matches d (name, b2)) →
  get_count json_loads (put_booking name b2 t) args =
  get_count json_loads t args.
Proof.
  intros Hb Hkey Hsame. unfold get_count, get_all_Booking.
  case_decide; [|done]. cbn [mbind outcome_bind]. f_equal.
  rewrite !length_group_by, <- !list_fmap_compose.
  set (F := <["status" := "Approved"]> _).
  f_equal. apply set_eq. intros k. rewrite !elem_of_list_to_set.
  rewrite !list_elem_of_fmap. cbn [put_booking tabBooking].
  assert (HF : ∀ row, matches F row ↔
                      status row.2 = "Approved" ∧
                      matches (delete "status" F) row).
  { intros row. unfold F. rewrite matches_status.
    by rewrite delete_insert_eq. }
  split.
  - intros ([n bk] & -> & [Hm Hrow]%list_elem_of_filter).
    apply elem_of_rows in Hrow. simpl in Hrow.
    apply lookup_insert_Some in Hrow as [[<- <-]|[Hne Hrow]].
    + exists (name, b1). split; [exact Hkey|].
      apply list_elem_of_filter. split; [|by apply elem_of_rows].
      apply (proj2 (HF (name, b1))), (proj2 (Hsame _)).
      exact (proj1 (HF (name, b2)) Hm).
    + exists (n, bk). split; [done|].
      apply list_elem_of_filter. split; [done|]. by apply elem_of_rows.
  - intros ([n bk] & -> & [Hm Hrow]%list_elem_of_filter).
    apply elem_of_rows in Hrow. simpl in Hrow.
    destruct (decide (n = name)) as [->|Hne].
    + assert (bk = b1) as -> by congruence.
      exists (name, b2). split; [symmetry; exact Hkey|].
      apply list_elem_of_filter. split.
      * apply (proj2 (HF (name, b2))), (proj1 (Hsame _)).
        exact (proj1 (HF (name, b1)) Hm).
      * apply elem_of_rows. simpl. apply lookup_insert_eq.
    + exists (n, bk). split; [done|].
      apply list_elem_of_filter. split; [done|].
      apply elem_of_rows. simpl. by rewrite lookup_insert_ne.
Qed.

(** X16.  The trip count does not see the booking lifecycle: under
    filters on the text columns [get_count] answers a number, and it
    answers the same number after a successful [finalize] (a "Created"
    booking becomes "Pending") and after a successful [update_manifest]. *)
Theorem get_count_blind_to_lifecycle (name : string) (bk : Booking)
    (db : DB) (args : option Args) :
  tabBooking (working db) !! name = Some bk →
  (∀ key,
     is_Some (normalize json_loads (FiltersDict ∅)
                (filters (default no_args args)) !! key) →
     key ∈ text_columns) →
  ∃ n,
    get_count json_loads (working db) args = Ok n ∧
    (status bk = "Created" →
       get_count json_loads (committed (finalize Stored name db).2) args =
       Ok n) ∧
    (∀ ps, Z.of_nat (length ps) ≤ quantity bk →
       get_count json_loads
         (committed (update_manifest meta_fields Stored name (Some ps) db).2)
         args =
       Ok n).
Proof.
  intros Hb Hcols. eexists. split; [by apply get_count_text_columns|]. split.
  - intros Hs. rewrite (finalize_Created _ _ _ Hb Hs). cbn [snd committed].
    rewrite (get_count_put_booking _ _ bk); [by apply get_count_text_columns|done|done|].
    intros d. simpl. rewrite Hs. split; by intros [? _].
  - intros ps Hq. rewrite (update_manifest_fits _ _ _ _ _ Hb Hq).
    cbn [snd committed].
    rewrite (get_count_put_booking _ _ bk); [by apply get_count_text_columns|done..].
Qed.

End LifecycleAndCount.

Section CreateGuarantees.
Variable getdate : string → exn + string.
Variable validate_email_address : string → string.
Variable autoname : Tables → Booking → string.

(** X17.  What a success of [create] guarantees: the stored booking has
    non-empty label, email, contact number and package, its package was
    found in the store, its date is what the date parser made of the date
    sent, its email passed the email check, it has at least one line item
    and status "Created". *)
Theorem create_success_guarantees (w : write_outcome)
    (bn em cn pk bd : string) (vq : option (list VariationQuantity))
    (parts sr : option (list fields)) (db : DB) :
  let res := create getdate validate_email_address autoname
               w bn em cn pk bd vq parts sr db in
  Response.status res.1 = "success" →
  ∃ name b,
    Response.data res.1 = BookingData name b ∧
    tabBooking (committed res.2) !! name = Some b ∧
    truthy (booking_name b) = true ∧ truthy (email b) = true ∧
    truthy (contact_number b) = true ∧ truthy (package b) = true ∧
    is_Some (tabPackage (working db) !! package b) ∧
    getdate bd = inr (booking_date b) ∧
    truthy (validate_email_address (email b)) = true ∧
    variation_quantity b ≠ [] ∧
    status b = "Created".
Proof.
  intros res. subst res.
  unfold create, create_body, get_doc_Package, parse_booking_date, insert,
    db_commit. run_body.
  destruct (forallb truthy _) eqn:Hreq; cbn [negb]; [|discriminate].
  destruct (tabPackage (working db) !! pk) as [pkg|] eqn:Hpk; [|discriminate].
  destruct (getdate bd) as [e|d] eqn:Hd; [destruct e; discriminate|].
  destruct vq as [[|i items]|]; [discriminate| |discriminate].
  destruct (truthy (validate_email_address em)) eqn:Hem; cbn [negb];
    [|discriminate].
  destruct w as [|partial e]; [|discriminate].
  intros _. cbn [fst snd Response.data success_response committed].
  eexists _, _. split; [reflexivity|].
  split; [apply lookup_insert_eq|].
  cbn -[truthy] in Hreq |- *.
  apply andb_prop in Hreq as [? Hreq]. apply andb_prop in Hreq as [? Hreq].
  apply andb_prop in Hreq as [? Hreq]. apply andb_prop in Hreq as [? Hreq].
  rewrite Hpk. repeat split; eauto.
Qed.

End CreateGuarantees.

Section EdgeCases.
Variable json_loads : string → filters_value.
Variable meta_fields : list (string * string).

(** X18.  [get_count] does apply an empty filter value that [get_list]
    ignores: when no Approved booking has an empty package key, counting
    with the "package" filter set to the empty string gives 0. *)
Theorem get_count_empty_value_applied (t : Tables) (ls lp : option Z) :
  (∀ n bk, tabBooking t !! n = Some bk → status bk = "Approved" →
           package bk ≠ EmptyString) →
  get_count json_loads t
    (Some {| limit_start := ls; limit_page_length := lp;
             filters := Some (Parsed (FiltersDict
                          {["package" := EmptyString]})) |}) = Ok 0%nat.
Proof.
  intros Hpk. unfold get_count, get_all_Booking.
  cbn [from_option id filters normalize].
  rewrite decide_True.
  2:{ apply map_Forall_insert_2; [done|]. by apply map_Forall_singleton. }
  cbn [mbind outcome_bind]. f_equal.
  rewrite filter_none; [done|].
  intros row Hrow [Hs Hm]%matches_status.
  apply elem_of_rows in Hrow. apply (Hpk _ _ Hrow Hs).
  assert (column_value "package" row = Some EmptyString) as [= ?]; [|done].
  apply Hm. rewrite lookup_delete_ne by done. apply lookup_singleton_eq.
Qed.

(** X19.  For a booking that does not exist, [update_manifest] answers
    "Booking '...' not found" whatever the participants argument is, even
    an omitted one, and leaves the store exactly as it was. *)
Theorem update_manifest_missing_booking (w : write_outcome) (name : string)
    (supplied : option (list fields)) (db : DB) :
  tabBooking (working db) !! name = None →
  update_manifest meta_fields w name supplied db =
    (error_response ("Booking '" +:+ name +:+ "' not found"), db).
Proof.
  intros Hb. unfold update_manifest. run_body.
  by rewrite (update_manifest_body_missing _ _ _ _ _ Hb).
Qed.

End EdgeCases.

(** * Worked instances of the further properties *)

Lemma sample_joins : map_Forall (SampleTrips.joins Sample.tables)
                       (tabBooking Sample.tables).
Proof. apply (bool_decide_unpack _). vm_compute. exact I. Qed.

Lemma sample_has_package :
  map_Forall SampleTrips.has_package (tabBooking Sample.tables).
Proof. apply (bool_decide_unpack _). vm_compute. exact I. Qed.


Lemma create_first_failing_check_witness :
  create Sample.getdate Sample.validate_email_address Sample.autoname
    Stored "Dive" EmptyString "013" "P1" "2024-07-01" None None None
    Sample.db =
  (error_response
     "Failed to create booking: All required fields must be provided",
   db_rollback Sample.db).
Proof.
  apply (proj1 (create_first_failing_check Sample.getdate
           Sample.validate_email_address Sample.autoname
           Stored "Dive" EmptyString "013" "P1" "2024-07-01" None None None
           Sample.db)).
  reflexivity.
Defined.

Lemma create_stores_what_was_sent_witness :
  ∃ b,
    tabBooking
      (committed
         (create Sample.getdate Sample.validate_email_address Sample.autoname
            Stored "Dive" "d@x.org" "013" "P1" "2024-07-01"
            (Some [{| variation := "Adult"; line_quantity := 2 |}])
            None None Sample.db).2) !! "BK-Dive" = Some b ∧
    participants b = [].
Proof.
  destruct (create_stores_what_was_sent Sample.getdate
              Sample.validate_email_address Sample.autoname
              "Dive" "d@x.org" "013" "P1" "2024-07-01"
              [{| variation := "Adult"; line_quantity := 2 |}] None None
              Sample.db {| package_name := "Island tour"; resource := "R1" |}
              "2024-07-01" eq_refl eq_refl eq_refl
              ltac:(discriminate) eq_refl)
    as (b & _ & Hb & _ & _ & _ & _ & _ & _ & _ & Hp & _).
  exists b. split; [exact Hb|exact Hp].
Defined.

Lemma create_then_finalize_witness :
  ∃ b,
    tabBooking
      (committed
         (finalize Stored "BK-Dive"
            (create Sample.getdate Sample.validate_email_address
               Sample.autoname Stored "Dive" "d@x.org" "013" "P1"
               "2024-07-01"
               (Some [{| variation := "Adult"; line_quantity := 2 |}])
               None None Sample.db).2).2) !! "BK-Dive" =
    Some (set_status "Pending" b).
Proof.
  destruct (create_then_finalize Sample.getdate
              Sample.validate_email_address Sample.autoname
              "Dive" "d@x.org" "013" "P1" "2024-07-01"
              [{| variation := "Adult"; line_quantity := 2 |}] None None
              Sample.db {| package_name := "Island tour"; resource := "R1" |}
              "2024-07-01" eq_refl eq_refl eq_refl
              ltac:(discriminate) eq_refl)
    as (b & _ & _ & Hb & _).
  exists b. exact Hb.
Defined.

Lemma finalize_update_manifest_commute_witness :
  (update_manifest Sample.meta_fields Stored "B5"
     (Some [{["full_name" := "Dee"]}]) (finalize Stored "B5" Sample.db).2).2 =
  (finalize Stored "B5"
     (update_manifest Sample.meta_fields Stored "B5"
        (Some [{["full_name" := "Dee"]}]) Sample.db).2).2.
Proof.
  apply (finalize_update_manifest_commute Sample.meta_fields "B5"
           (Sample.booking "P2" "2024-05-02" "Created" 1 "c@x.org")
           [{["full_name" := "Dee"]}] Sample.db eq_refl eq_refl).
  simpl. lia.
Defined.

Lemma update_manifest_last_wins_witness :
  update_manifest Sample.meta_fields Stored "B2"
    (Some [{["full_name" := "Cy"]}])
    (update_manifest Sample.meta_fields Stored "B2"
       (Some [{["full_name" := "Bob"]}; {["full_name" := "Cy"]}])
       Sample.db).2 =
  update_manifest Sample.meta_fields Stored "B2"
    (Some [{["full_name" := "Cy"]}]) Sample.db.
Proof.
  apply (update_manifest_last_wins Sample.meta_fields "B2"
           (Sample.booking "P1" "2024-06-01" "Approved" 2 "b@x.org")
           [{["full_name" := "Bob"]}; {["full_name" := "Cy"]}]
           [{["full_name" := "Cy"]}] Sample.db eq_refl);
    simpl; lia.
Defined.

Lemma update_manifest_response_rows_witness :
  ∃ out,
    Response.data
      (update_manifest Sample.meta_fields Stored "B2"
         (Some [{["full_name" := "Bob"]}]) Sample.db).1 =
      ManifestData "B2" "Trip of b@x.org" "Approved" out ∧
    length out = 1%nat.
Proof.
  destruct (update_manifest_response_rows Sample.meta_fields "B2"
              (Sample.booking "P1" "2024-06-01" "Approved" 2 "b@x.org")
              [{["full_name" := "Bob"]}] Sample.db eq_refl
              ltac:(simpl; lia))
    as (out & Hres & Hlen & _).
  exists out. split; [|exact Hlen]. rewrite Hres. reflexivity.
Defined.

Lemma get_list_row_identity_witness :
  TripRow.id SampleTrips.first_row =
    Some (TripRow.package SampleTrips.first_row +:+ "-" +:+
          TripRow.booking_date SampleTrips.first_row).
Proof.
  apply (get_list_row_identity Sample.json_loads Sample.tables None
           SampleTrips.listing SampleTrips.first_row).
  - vm_compute. reflexivity.
  - apply elem_of_cons. left. reflexivity.
Defined.

Lemma get_list_row_loads_witness :
  ∃ trip,
    load_from_db Sample.tables (TripRow.name SampleTrips.first_row) = Ok trip ∧
    ScheduledTrips.quantity trip = TripRow.quantity SampleTrips.first_row.
Proof.
  destruct (get_list_row_loads Sample.json_loads Sample.tables None
              SampleTrips.listing SampleTrips.first_row
              ltac:(vm_compute; reflexivity)
              ltac:(apply elem_of_cons; left; reflexivity))
    as (trip & Hload & _ & Hq & _).
  exists trip. split; [exact Hload|exact Hq].
Defined.

Lemma get_list_pages_tile_witness :
  ∃ p1 p2,
    get_list Sample.json_loads Sample.tables
      (Some {| limit_start := Some 0; limit_page_length := Some 1;
               filters := None |}) = Ok p1 ∧
    get_list Sample.json_loads Sample.tables
      (Some {| limit_start := Some 1; limit_page_length := Some 1;
               filters := None |}) = Ok p2 ∧
    get_list Sample.json_loads Sample.tables
      (Some {| limit_start := Some 0; limit_page_length := Some 2;
               filters := None |}) = Ok (p1 ++ p2).
Proof.
  destruct (get_list_pages_tile Sample.json_loads Sample.tables None 0 1 1
              ltac:(lia) ltac:(lia) ltac:(lia))
    as (p1 & p2 & H1 & H2 & H3 & _).
  exists p1, p2. split; [exact H1|]. split; [exact H2|exact H3].
Defined.

Lemma get_list_empty_value_ignored_witness :
  get_list Sample.json_loads Sample.tables
    (Some {| limit_start := None; limit_page_length := None;
             filters := Some (Parsed (FiltersDict
                          (<["package" := EmptyString]> ∅))) |}) =
  get_list Sample.json_loads Sample.tables
    (Some {| limit_start := None; limit_page_length := None;
             filters := Some (Parsed (FiltersDict (delete "package" ∅))) |}).
Proof.
  apply (get_list_empty_value_ignored Sample.json_loads Sample.tables
           None None ∅ "package").
  left. reflexivity.
Defined.

Lemma get_list_filters_exact_witness :
  TripRow.booking_date SampleTrips.june_row = "2024-06-01".
Proof.
  apply (proj1 (get_list_filters_exact Sample.json_loads Sample.tables
                  SampleTrips.june SampleTrips.june_listing
                  SampleTrips.june_row
                  ltac:(vm_compute; reflexivity)
                  ltac:(apply elem_of_cons; left; reflexivity))).
  - reflexivity.
  - reflexivity.
Defined.

Lemma get_count_matches_get_list_witness :
  ∃ n page,
    get_count Sample.json_loads Sample.tables None = Ok n ∧
    get_list Sample.json_loads Sample.tables
      (Some {| limit_start := Some 0; limit_page_length := Some 20;
               filters := None |}) = Ok page ∧
    length page = n.
Proof.
  destruct (get_count_matches_get_list Sample.json_loads Sample.tables None)
    as (n & Hn & Hpage).
  - intros k v Hk. change ((∅ : fields) !! k = Some v) in Hk.
    rewrite lookup_empty in Hk. discriminate.
  - intros name bk Hbk Hs.
    destruct (sample_joins name bk Hbk Hs) as [j Hj].
    apply join_row_Some in Hj as (_ & _ & Hp & Hr). simpl in Hp. eauto.
  - assert (Hle : Z.of_nat n ≤ 20).
    { assert (n = 2%nat) as ->; [|lia].
      vm_compute in Hn. by injection Hn. }
    destruct (Hpage 20 Hle) as (page & Hp & Hl).
    exists n, page. split; [exact Hn|]. split; [exact Hp|exact Hl].
Defined.

Lemma load_from_db_outcome_witness :
  ∃ trip, load_from_db Sample.tables "B3" = Ok trip.
Proof.
  apply (proj1 (load_from_db_outcome Sample.tables "B3")).
  exists (Sample.booking "P2" "2024-05-01" "Approved" 4 "b@x.org"),
    {| package_name := "Reef tour"; resource := "R1" |},
    {| resource_name := "Boat"; capacity := 10 |}.
  repeat split; reflexivity.
Defined.

Lemma load_from_db_any_representative_witness :
  ∃ trip trip',
    load_from_db Sample.tables "B1" = Ok trip ∧
    load_from_db Sample.tables "B2" = Ok trip' ∧
    ScheduledTrips.quantity trip' = ScheduledTrips.quantity trip.
Proof.
  eexists _, _. split; [vm_compute; reflexivity|]. split.
  - apply (proj2 (load_from_db_any_representative Sample.tables "B1" "B2"
             (Sample.booking "P1" "2024-06-01" "Approved" 3 "a@x.org")
             (Sample.booking "P1" "2024-06-01" "Approved" 2 "b@x.org")
             eq_refl eq_refl eq_refl eq_refl eq_refl eq_refl)).
    vm_compute. reflexivity.
  - reflexivity.
Defined.

Lemma get_count_blind_to_lifecycle_witness :
  ∃ n,
    get_count Sample.json_loads (working Sample.db) Sample.email_filter =
      Ok n ∧
    get_count Sample.json_loads
      (committed (finalize Stored "B5" Sample.db).2) Sample.email_filter =
      Ok n.
Proof.
  destruct (get_count_blind_to_lifecycle Sample.json_loads
              Sample.meta_fields "B5"
              (Sample.booking "P2" "2024-05-02" "Created" 1 "c@x.org")
              Sample.db Sample.email_filter eq_refl)
    as (n & Hn & Hfin & _).
  - intros key [v Hv]. cbn in Hv.
    apply lookup_singleton_Some in Hv as [<- _].
    unfold text_columns. repeat constructor.
  - exists n. split; [exact Hn|]. apply Hfin. reflexivity.
Defined.

Lemma create_success_guarantees_witness :
  ∃ name b,
    Response.data
      (create Sample.getdate Sample.validate_email_address Sample.autoname
         Stored "Dive" "d@x.org" "013" "P1" "2024-07-01"
         (Some [{| variation := "Adult"; line_quantity := 2 |}])
         None None Sample.db).1 = BookingData name b ∧
    status b = "Created".
Proof.
  destruct (create_success_guarantees Sample.getdate
              Sample.validate_email_address Sample.autoname
              Stored "Dive" "d@x.org" "013" "P1" "2024-07-01"
              (Some [{| variation := "Adult"; line_quantity := 2 |}])
              None None Sample.db eq_refl)
    as (name & b & Hd & _ & _ & _ & _ & _ & _ & _ & _ & _ & Hs).
  exists name, b. split; [exact Hd|exact Hs].
Defined.

Lemma get_count_empty_value_applied_witness :
  get_count Sample.json_loads Sample.tables
    (Some {| limit_start := None; limit_page_length := None;
             filters := Some (Parsed (FiltersDict
                          {["package" := EmptyString]})) |}) = Ok 0%nat.
Proof.
  apply (get_count_empty_value_applied Sample.json_loads Sample.tables
           None None).
  intros n bk Hbk Hs. exact (sample_has_package n bk Hbk Hs).
Defined.

Lemma update_manifest_missing_booking_witness :
  update_manifest Sample.meta_fields Stored "B9" None Sample.db =
    (error_response "Booking 'B9' not found", Sample.db).
Proof.
  apply (update_manifest_missing_booking Sample.meta_fields Stored "B9" None
           Sample.db).
  reflexivity.
Defined.
